(** * SpecGenie: the text-processing core and the Flask routes of [app.py]

    A shallow embedding of [generate_user_stories], [extract_entities],
    [generate_risks] and of the five route handlers, followed by the
    properties of the specification that concern them. *)

From Stdlib Require Import String Ascii NArith List Bool Lia.
From stdpp Require Import gmap strings list fin_maps.
Import ListNotations.

Local Open Scope N_scope.

(** ** Python [str]

    A Python string is a sequence of Unicode code points; [len] counts code
    points.  All literals of [app.py] are ASCII, so a literal is read off a
    Rocq string byte by byte. *)

Abbreviation str := (list N).

Definition py (s : string) : str :=
  map N_of_ascii (list_ascii_of_string s).

(** ['\n'] *)
Definition NL : N := 10.
(** ['.'] *)
Definition DOT : N := 46.

(** [str.isspace] on one code point: the characters CPython's
    [_PyUnicode_IsWhitespace] accepts, which are the ones [str.strip()]
    removes. *)
Definition is_space (c : N) : bool :=
  ((9 <=? c) && (c <=? 13)) || ((28 <=? c) && (c <=? 32))
  || (c =? 133) || (c =? 160) || (c =? 5760)
  || ((8192 <=? c) && (c <=? 8202))
  || (c =? 8232) || (c =? 8233) || (c =? 8239) || (c =? 8287) || (c =? 12288).

Fixpoint lstrip (s : str) : str :=
  match s with
  | [] => []
  | c :: s' => if is_space c then lstrip s' else s
  end.

Definition rstrip (s : str) : str := rev (lstrip (rev s)).

(** [s.strip()] *)
Definition strip (s : str) : str := rstrip (lstrip s).

(** Case mapping of the ASCII letters. *)
Definition ascii_lower (c : N) : N :=
  if (65 <=? c) && (c <=? 90) then c + 32 else c.

Definition ascii_upper (c : N) : N :=
  if (97 <=? c) && (c <=? 122) then c - 32 else c.

Definition is_ascii (c : N) : Prop := c < 128.

(** [s.capitalize()]: first character upper-cased, the rest lower-cased.
    The code applies it to the keys of [entity_patterns] only, which are
    ASCII. *)
Definition capitalize (s : str) : str :=
  match s with
  | [] => []
  | c :: r => ascii_upper c :: map ascii_lower r
  end.

(** [s.startswith(p)] *)
Fixpoint startswith (p s : str) : bool :=
  match p, s with
  | [], _ => true
  | _ :: _, [] => false
  | a :: p', b :: s' => (a =? b) && startswith p' s'
  end.

(** [s.endswith(p)] *)
Definition endswith (p s : str) : bool := startswith (rev p) (rev s).

(** [needle in hay]: substring containment. *)
Fixpoint contains (needle hay : str) : bool :=
  startswith needle hay ||
  match hay with
  | [] => false
  | _ :: hay' => contains needle hay'
  end.

(** ** The two regular expressions *)

(** The character class [[.\n]]. *)
Definition is_sep (c : N) : bool := (c =? DOT) || (c =? NL).

(** [re.split(r'[.\n]+', s)].  [in_run] tells that the previous character
    belonged to a separator run (the run is greedy, so it is one match);
    [cur] holds the current piece, reversed.  The piece after the last match
    is always emitted, also when it is empty. *)
Fixpoint re_split_from (in_run : bool) (cur : str) (s : str) : list str :=
  match s with
  | [] => [rev cur]
  | c :: s' =>
      if is_sep c then
        if in_run then re_split_from true [] s'
        else rev cur :: re_split_from true [] s'
      else re_split_from false (c :: cur) s'
  end.

Definition re_split (s : str) : list str := re_split_from false [] s.

(** The alternatives of [r'^(the system should |...|should )'], in order. *)
Definition filler_prefixes : list str :=
  [ py "the system should "; py "the app should "; py "users can ";
    py "the user can "; py "it should "; py "should " ].

(** [s] without the leading [p], when [s] starts with [p]. *)
Definition remove_prefix (p s : str) : option str :=
  if startswith p s then Some (drop (length p) s) else None.

(** [re.sub(r'^(p1|p2|...)', '', s)]: [^] matches at position 0 only (no
    MULTILINE flag), the alternatives are tried in order, and after a match of
    non-zero length no further match is possible. *)
Fixpoint re_sub_leading (alts : list str) (s : str) : str :=
  match alts with
  | [] => s
  | p :: alts' =>
      match remove_prefix p s with
      | Some r => r
      | None => re_sub_leading alts' s
      end
  end.

(** ** Data produced by the core *)

Record Entity := mkEntity { entity : str; responsibilities : str }.

Record Risk := mkRisk { risk : str; impact : str; likelihood : str }.

Definition High : str := py "High".
Definition Medium : str := py "Medium".
Definition Low : str := py "Low".

#[global] Instance Entity_eq_dec : EqDecision Entity.
Proof. solve_decision. Defined.

#[global] Instance Risk_eq_dec : EqDecision Risk.
Proof. solve_decision. Defined.

(** ** Static tables, in dictionary (insertion) order *)

Definition entity_patterns : list (str * str) :=
  [ (py "user", py "Authenticate, view content, perform actions, manage profile");
    (py "admin", py "Manage users, configure system, view reports, moderate content");
    (py "customer", py "Browse products, place orders, track deliveries, leave reviews");
    (py "order", py "Store order details, track status, calculate totals, manage items");
    (py "product", py "Store product info, manage inventory, display details, handle pricing");
    (py "system", py "Process requests, manage data, handle errors, provide services");
    (py "database", py "Store data, handle queries, ensure integrity, manage backups");
    (py "payment", py "Process transactions, validate cards, handle refunds, generate receipts");
    (py "report", py "Aggregate data, generate visualizations, export formats, schedule delivery");
    (py "notification", py "Send alerts, manage preferences, track delivery, handle templates");
    (py "project", py "Store project info, track progress, manage members, handle deadlines");
    (py "task", py "Track status, assign owners, set deadlines, manage dependencies");
    (py "file", py "Store content, manage versions, handle uploads, control access");
    (py "message", py "Store content, track read status, manage threads, handle attachments");
    (py "account", py "Manage credentials, track activity, handle permissions, store preferences");
    (py "inventory", py "Track quantities, manage locations, handle transfers, set alerts");
    (py "category", py "Organize items, manage hierarchy, handle relationships, enable filtering");
    (py "review", py "Store ratings, manage comments, track helpfulness, moderate content");
    (py "cart", py "Manage items, calculate totals, handle quantities, persist session");
    (py "shipping", py "Calculate costs, track packages, manage addresses, handle returns") ].

Definition default_entity : Entity :=
  mkEntity (py "System") (py "Handle core business logic and user interactions").

Definition generic_risks : list Risk :=
  [ mkRisk (py "Performance issues with large datasets") Medium Medium;
    mkRisk (py "Security vulnerabilities in user input handling") High Medium;
    mkRisk (py "Insufficient error handling causing poor user experience") Medium High ].

Definition keyword_risks : list (str * Risk) :=
  [ (py "payment", mkRisk (py "Payment gateway integration failure") High Low);
    (py "user data", mkRisk (py "User data privacy and GDPR compliance issues") High Medium);
    (py "password", mkRisk (py "Weak password storage leading to data breach") High Medium);
    (py "upload", mkRisk (py "Malicious file upload vulnerability") High Medium);
    (py "api", mkRisk (py "API rate limiting and availability issues") Medium Medium);
    (py "database", mkRisk (py "Database corruption or data loss") High Low);
    (py "real-time", mkRisk (py "Real-time synchronization failures") Medium Medium);
    (py "notification", mkRisk (py "Notification delivery failures or spam issues") Low Medium);
    (py "third-party", mkRisk (py "Third-party service dependency and downtime") Medium Medium);
    (py "mobile", mkRisk (py "Cross-platform compatibility issues") Medium High) ].

Definition story_head : str := py "As a user, I want to ".
Definition story_tail : str := py " so that I can accomplish my goals efficiently.".

Definition default_story : str :=
  py "As a user, I want to use the system so that I can accomplish my tasks.".

(** ** The three generation functions

    [str.lower] depends on the Unicode character database (and, for the final
    sigma, on context), which is not part of the repository: it is a
    parameter of the development. *)

Section Core.

Variable lower : str -> str.

(** The f-string of [generate_user_stories]. *)
Definition story_of (action : str) : str := story_head ++ action ++ story_tail.

(** One iteration of the loop over [sentences]. *)
Definition story_step (user_stories : list str) (sentence : str) : list str :=
  let sentence := strip sentence in
  if (length sentence <? 10)%nat then user_stories
  else
    let action := lower sentence in
    let action := re_sub_leading filler_prefixes action in
    user_stories ++ [story_of action].

Definition generate_user_stories (description : str) : list str :=
  let sentences := re_split description in
  let user_stories := fold_left story_step sentences [] in
  match user_stories with
  | [] => [default_story]
  | _ => user_stories
  end.

(** One iteration of the loop over [entity_patterns.items()]. *)
Definition entity_step (description_lower : str)
    (entities : list Entity) (kv : str * str) : list Entity :=
  let '(entity, responsibilities) := kv in
  if contains entity description_lower
  then entities ++ [mkEntity (capitalize entity) responsibilities]
  else entities.

Definition extract_entities (description : str) : list Entity :=
  let description_lower := lower description in
  let entities := fold_left (entity_step description_lower) entity_patterns [] in
  match entities with
  | [] => [default_entity]
  | _ => entities
  end.

(** One iteration of the loop over [keyword_risks.items()]. *)
Definition risk_step (description_lower : str)
    (risks : list Risk) (kv : str * Risk) : list Risk :=
  let '(keyword, risk_data) := kv in
  if contains keyword description_lower then risks ++ [risk_data] else risks.

Definition generate_risks (description : str) : list Risk :=
  let description_lower := lower description in
  let risks := [] ++ generic_risks in
  fold_left (risk_step description_lower) keyword_risks risks.

End Core.

(** [str.lower] restricted to what it does on ASCII text. *)
Definition lower_ascii_text (s : str) : str := map ascii_lower s.

Definition agrees_on_ascii (lower : str -> str) : Prop :=
  forall s, Forall is_ascii s -> lower s = map ascii_lower s.

(** ** The Flask routes

    The session is a dictionary from keys to Python values; a handler reads
    and writes it and produces a response.  The trace records, in order, the
    calls a handler makes to the core and to the rendering and export
    collaborators. *)

Record AnalysisRecord := mkAnalysis {
  a_description : str;
  a_user_stories : list str;
  a_entities : list Entity;
  a_risks : list Risk
}.

(** The values the application stores in the session. *)
Inductive value :=
| VStr (s : str)
| VStories (l : list str)
| VAnalysis (a : AnalysisRecord).

(** Python truthiness: an empty string or list is false; the analysis
    dictionary has four keys, hence is true. *)
Definition truthy (v : value) : bool :=
  match v with
  | VStr s => negb (bool_decide (s = []))
  | VStories l => negb (bool_decide (l = []))
  | VAnalysis _ => true
  end.

(** [not x] for [x = session.get(k)], where a missing key gives [None]. *)
Definition py_not (x : option value) : bool :=
  match x with
  | None => true
  | Some v => negb (truthy v)
  end.

Inductive Event :=
| CoreCall (fn : string) (arg : str)
| TemplateRendered (name : string)
| FileSent (download_name : string).

Inductive TemplateContext :=
| IndexContext (description : value)
| ResultsContext (description : str) (user_stories : list str)
    (entities : list Entity) (risks : list Risk).

(** The calls made on the [FPDF] object.  The document is the sequence of
    the calls that succeeded. *)
Inductive PdfOp :=
| AddPage
| SetFont (family : string) (size : nat)
| Cell (w h : nat) (txt : str) (ln : bool)
| Ln (h : nat)
| MultiCell (w h : nat) (txt : str).

Inductive Response :=
| Redirect (location : string)
| RenderTemplate (name : string) (ctx : TemplateContext)
| SendFile (pdf : list PdfOp) (download_name mimetype : string)
| InternalServerError.

Record World := mkWorld {
  session : gmap string value;
  trace : list Event
}.

Definition Handler (A : Type) : Type := World -> A * World.

#[global] Instance Handler_ret : MRet Handler := fun A a w => (a, w).
#[global] Instance Handler_bind : MBind Handler :=
  fun A B f m w => let '(a, w') := m w in f a w'.

Definition session_get (k : string) : Handler (option value) :=
  fun w => (session w !! k, w).

Definition session_set (k : string) (v : value) : Handler unit :=
  fun w => (tt, mkWorld (<[k := v]> (session w)) (trace w)).

(** [session.pop(k, None)] *)
Definition session_pop (k : string) : Handler unit :=
  fun w => (tt, mkWorld (delete k (session w)) (trace w)).

Definition emit (e : Event) : Handler unit :=
  fun w => (tt, mkWorld (session w) (trace w ++ [e])).

(** The routes registered with [@app.route]. *)
Definition url_for (endpoint : string) : string :=
  if String.eqb endpoint "index" then "/"
  else if String.eqb endpoint "analyze" then "/analyze"
  else if String.eqb endpoint "results" then "/results"
  else if String.eqb endpoint "demo" then "/demo"
  else if String.eqb endpoint "export_stories_pdf" then "/export_stories_pdf"
  else "".

Definition redirect (location : string) : Handler Response :=
  mret (Redirect location).

Definition render_template (name : string) (ctx : TemplateContext)
  : Handler Response :=
  emit (TemplateRendered name);; mret (RenderTemplate name ctx).

Definition send_file (pdf : list PdfOp) (download_name mimetype : string)
  : Handler Response :=
  emit (FileSent download_name);; mret (SendFile pdf download_name mimetype).

Definition sample_description : str :=
  py "The system should allow users to register and login securely." ++ [NL] ++
  py "Users can create and manage their projects." ++ [NL] ++
  py "Each project can have multiple tasks with deadlines." ++ [NL] ++
  py "Admins can view reports and manage all users." ++ [NL] ++
  py "The system should send notifications for upcoming deadlines." ++ [NL] ++
  py "Users can upload files and attach them to tasks." ++ [NL] ++
  py "The database should store all project and task information." ++ [NL] ++
  py "Users can search and filter their tasks by status or date.".

(** What [for s in stories] iterates over, by the type of [stories]. *)
Definition iterate (v : value) : list str :=
  match v with
  | VStr s => map (fun c => [c]) s
  | VStories l => l
  | VAnalysis _ =>
      [py "description"; py "user_stories"; py "entities"; py "risks"]
  end.

Definition stories_pdf (stories : list str) : list PdfOp :=
  [AddPage; SetFont "Arial" 12;
   Cell 0 10 (py "SpecGenie - User Stories") true; Ln 5]
  ++ flat_map (fun s => [MultiCell 0 8 (py "- " ++ s); Ln 1]) stories.

(** Arial is a core font of the PDF library: [multi_cell] encodes its text to
    latin-1 and raises for a code point above 255. *)
Definition latin1 (s : str) : bool := forallb (fun c => c <? 256) s.

(** Whether every call [pdf.multi_cell(0, 8, f'- {s}')] of the loop over
    [stories] succeeds. *)
Definition pdf_accepts (stories : list str) : bool :=
  forallb (fun s => latin1 (py "- " ++ s)) stories.

Section Routes.

Variable lower : str -> str.

Definition call_generate_user_stories (d : str) : Handler (list str) :=
  emit (CoreCall "generate_user_stories" d);;
  mret (generate_user_stories lower d).

Definition call_extract_entities (d : str) : Handler (list Entity) :=
  emit (CoreCall "extract_entities" d);;
  mret (extract_entities lower d).

Definition call_generate_risks (d : str) : Handler (list Risk) :=
  emit (CoreCall "generate_risks" d);;
  mret (generate_risks lower d).

Definition index : Handler Response :=
  v ← session_get "demo_description";
  let demo_description := default (VStr []) v in
  render_template "index.html" (IndexContext demo_description).

Definition analyze (form : gmap string str) : Handler Response :=
  let description := strip (default [] (form !! "description"%string)) in
  if bool_decide (description = []) then redirect (url_for "index")
  else
    user_stories ← call_generate_user_stories description;
    entities ← call_extract_entities description;
    risks ← call_generate_risks description;
    session_set "analysis"
      (VAnalysis (mkAnalysis description user_stories entities risks));;
    session_set "user_stories" (VStories user_stories);;
    session_pop "demo_description";;
    redirect (url_for "results").

Definition results : Handler Response :=
  analysis ← session_get "analysis";
  if py_not analysis then redirect (url_for "index")
  else
    match analysis with
    | Some (VAnalysis a) =>
        render_template "results.html"
          (ResultsContext (a_description a) (a_user_stories a)
             (a_entities a) (a_risks a))
    | _ => mret InternalServerError
    end.

Definition demo : Handler Response :=
  session_set "demo_description" (VStr sample_description);;
  redirect (url_for "index").

(** An exception raised by [multi_cell] ends the request with a 500 response
    before [send_file] is reached; the session is not written. *)
Definition export_stories_pdf : Handler Response :=
  stories ← session_get "user_stories";
  if py_not stories then redirect (url_for "index")
  else
    match stories with
    | Some v =>
        if pdf_accepts (iterate v) then
          send_file (stories_pdf (iterate v))
            "specgenie_user_stories.pdf" "application/pdf"
        else mret InternalServerError
    | None => mret InternalServerError
    end.

Inductive Request :=
| GET_index
| POST_analyze (form : gmap string str)
| GET_results
| GET_demo
| GET_export_stories_pdf.

Definition handle (r : Request) : Handler Response :=
  match r with
  | GET_index => index
  | POST_analyze form => analyze form
  | GET_results => results
  | GET_demo => demo
  | GET_export_stories_pdf => export_stories_pdf
  end.

(** The sessions a client can hold: a fresh one, or the one left by a
    request made with a session it held before. *)
Inductive reachable : gmap string value -> Prop :=
| reachable_fresh : reachable ∅
| reachable_step s r t :
    reachable s ->
    reachable (session (handle r (mkWorld s t)).2).

End Routes.

(** ** What the three loops collect

    Each loop only appends to its accumulator, so its result is the
    concatenation of what the single iterations contribute. *)

Section Collected.

Variable lower : str -> str.

(** The stories produced by the loop, before the default is considered. *)
Definition loop_stories (description : str) : list str :=
  flat_map (story_step lower []) (re_split description).

Definition found_entities (description : str) : list Entity :=
  flat_map (entity_step (lower description) []) entity_patterns.

Definition triggered_risks (description : str) : list Risk :=
  flat_map (risk_step (lower description) []) keyword_risks.

End Collected.

(** What the routes maintain about the session: [analysis] and
    [user_stories] are set together, to an analysis record and to its
    (non-empty) list of stories. *)
Definition session_inv (s : gmap string value) : Prop :=
  match s !! "analysis"%string, s !! "user_stories"%string with
  | None, None => True
  | Some (VAnalysis a), Some (VStories l) => l = a_user_stories a /\ l <> []
  | _, _ => False
  end.

(** What every session left by the routes satisfies: a stored analysis is
    the analysis of its own description, which is trimmed and not empty, and
    [user_stories] holds the stories of that analysis; [demo_description],
    when set, is the sample text. *)
Definition session_analysed (lower : str -> str) (s : gmap string value) : Prop :=
  match s !! "analysis"%string with
  | None => s !! "user_stories"%string = None
  | Some v =>
      exists d, d <> [] /\ strip d = d /\
        v = VAnalysis (mkAnalysis d (generate_user_stories lower d)
                         (extract_entities lower d) (generate_risks lower d)) /\
        s !! "user_stories"%string
        = Some (VStories (generate_user_stories lower d))
  end
  /\ (s !! "demo_description"%string = None \/
      s !! "demo_description"%string = Some (VStr sample_description)).

(** The session as [analyze] leaves it for a description that is not blank. *)
Definition analysed_session (lower : str -> str) (d : str)
    (s : gmap string value) : gmap string value :=
  delete "demo_description"%string
    (<["user_stories"%string := VStories (generate_user_stories lower d)]>
       (<["analysis"%string :=
            VAnalysis (mkAnalysis d (generate_user_stories lower d)
                         (extract_entities lower d) (generate_risks lower d))]>
          s)).

(** * Properties *)

(** ** The model on small inputs *)

Example re_split_runs :
  re_split (py "a..b") = [py "a"; py "b"]
  /\ re_split (py ".a") = [[]; py "a"]
  /\ re_split (py "a.") = [py "a"; []]
  /\ re_split [] = [[]]
  /\ re_split (py "a." ++ [NL] ++ py "b") = [py "a"; py "b"].
Proof. repeat split; reflexivity. Qed.

Example re_split_two_sentences :
  re_split (py "The system should allow login. Users can upload files.")
  = [py "The system should allow login"; py " Users can upload files"; []].
Proof. reflexivity. Qed.

Example strip_both_ends : strip (py "  Users can upload files ") = py "Users can upload files".
Proof. reflexivity. Qed.

Example re_sub_leading_first_alternative :
  re_sub_leading filler_prefixes (py "should the system should x") = py "the system should x"
  /\ re_sub_leading filler_prefixes (py "users can users can x") = py "users can x"
  /\ re_sub_leading filler_prefixes (py "we should do it") = py "we should do it".
Proof. repeat split; reflexivity. Qed.

Example short_sentence_is_noise :
  generate_user_stories lower_ascii_text (py "Hi.") = [default_story].
Proof. vm_compute. reflexivity. Qed.

Example capitalize_key : capitalize (py "database") = py "Database".
Proof. reflexivity. Qed.

(** ** Strings *)

Lemma startswith_app (p s : str) : startswith p (p ++ s) = true.
Proof.
  induction p as [|a p IH]; simpl; [reflexivity|].
  rewrite N.eqb_refl. exact IH.
Qed.

Lemma endswith_app (p s : str) : endswith p (s ++ p) = true.
Proof.
  unfold endswith. rewrite rev_app_distr. apply startswith_app.
Qed.

Lemma lstrip_all_space (s : str) :
  Forall (fun c => is_space c = true) s -> lstrip s = [].
Proof.
  induction 1 as [|c s Hc _ IH]; simpl; [reflexivity|].
  rewrite Hc. exact IH.
Qed.

Lemma strip_all_space (s : str) :
  Forall (fun c => is_space c = true) s -> strip s = [].
Proof.
  intros H. unfold strip, rstrip. rewrite (lstrip_all_space s H). reflexivity.
Qed.

(** Every piece of a split is made of characters of the text. *)
Lemma re_split_from_Forall (P : N -> Prop) (s : str) :
  Forall P s ->
  forall in_run cur, Forall P cur ->
    Forall (Forall P) (re_split_from in_run cur s).
Proof.
  induction 1 as [|c s Hc _ IH]; intros in_run cur Hcur; simpl.
  - constructor; [|constructor]. apply Forall_rev. exact Hcur.
  - destruct (is_sep c).
    + destruct in_run.
      * apply IH. constructor.
      * constructor; [apply Forall_rev; exact Hcur|]. apply IH. constructor.
    + apply IH. constructor; assumption.
Qed.

Lemma re_split_Forall (P : N -> Prop) (s : str) :
  Forall P s -> Forall (Forall P) (re_split s).
Proof.
  intros H. apply re_split_from_Forall; [exact H|constructor].
Qed.

Lemma forallb_is_ascii (s : str) :
  forallb (fun c => c <? 128) s = true -> Forall is_ascii s.
Proof.
  intros H. apply Forall_forall. intros c Hc.
  apply list_elem_of_In in Hc.
  rewrite forallb_forall in H. apply N.ltb_lt, H, Hc.
Qed.

(** ** Loops that only append *)

Section Appending.

Context {A B : Type} (step : list A -> B -> list A).
Hypothesis step_app : forall acc b, step acc b = acc ++ step [] b.

Lemma fold_left_appending (l : list B) (acc : list A) :
  fold_left step l acc = acc ++ flat_map (step []) l.
Proof.
  revert acc. induction l as [|b l IH]; intros acc; simpl.
  - symmetry. apply app_nil_r.
  - rewrite IH, step_app. symmetry. apply app_assoc.
Qed.

End Appending.

Section CoreFacts.

Variable lower : str -> str.

Lemma story_step_app acc sentence :
  story_step lower acc sentence = acc ++ story_step lower [] sentence.
Proof.
  unfold story_step. destruct (_ <? _)%nat; [|reflexivity].
  symmetry. apply app_nil_r.
Qed.

Lemma entity_step_app dl acc kv :
  entity_step dl acc kv = acc ++ entity_step dl [] kv.
Proof.
  destruct kv as [k v]. unfold entity_step.
  destruct (contains k dl); [reflexivity|]. symmetry. apply app_nil_r.
Qed.

Lemma risk_step_app dl acc kv :
  risk_step dl acc kv = acc ++ risk_step dl [] kv.
Proof.
  destruct kv as [k v]. unfold risk_step.
  destruct (contains k dl); [reflexivity|]. symmetry. apply app_nil_r.
Qed.

Lemma generate_user_stories_unfold d :
  generate_user_stories lower d =
  match loop_stories lower d with [] => [default_story] | l => l end.
Proof.
  unfold generate_user_stories, loop_stories.
  rewrite (fold_left_appending _ story_step_app), app_nil_l.
  destruct (flat_map _ _); reflexivity.
Qed.

Lemma extract_entities_unfold d :
  extract_entities lower d =
  match found_entities lower d with [] => [default_entity] | l => l end.
Proof.
  unfold extract_entities, found_entities.
  rewrite (fold_left_appending _ (entity_step_app _)), app_nil_l.
  destruct (flat_map _ _); reflexivity.
Qed.

Lemma generate_risks_unfold d :
  generate_risks lower d = generic_risks ++ triggered_risks lower d.
Proof.
  unfold generate_risks, triggered_risks.
  rewrite (fold_left_appending _ (risk_step_app _)). reflexivity.
Qed.

Lemma triggered_sublist dl (tbl : list (str * Risk)) :
  flat_map (risk_step dl []) tbl `sublist_of` map snd tbl.
Proof.
  induction tbl as [|[k r] tbl IH]; simpl; [constructor|].
  destruct (contains k dl); simpl.
  - apply sublist_skip, IH.
  - apply sublist_cons, IH.
Qed.

Lemma generate_risks_sublist d :
  generate_risks lower d `sublist_of` generic_risks ++ map snd keyword_risks.
Proof.
  rewrite generate_risks_unfold.
  apply sublist_app; [reflexivity|apply triggered_sublist].
Qed.

Lemma all_risks_NoDup : NoDup (generic_risks ++ map snd keyword_risks).
Proof. apply (bool_decide_unpack _). vm_compute. exact I. Qed.

Lemma generate_risks_NoDup d : NoDup (generate_risks lower d).
Proof.
  eapply sublist_NoDup; [apply all_risks_NoDup|apply generate_risks_sublist].
Qed.

(** A table row whose keyword occurs contributes its risk. *)
Lemma triggered_risks_elem d k r :
  (k, r) ∈ keyword_risks ->
  contains k (lower d) = true ->
  r ∈ triggered_risks lower d.
Proof.
  intros Hin Hc. unfold triggered_risks.
  apply list_elem_of_In, in_flat_map. exists (k, r). split.
  - apply list_elem_of_In, Hin.
  - simpl. rewrite Hc. left. reflexivity.
Qed.

Lemma found_entities_elem d k v :
  (k, v) ∈ entity_patterns ->
  contains k (lower d) = true ->
  mkEntity (capitalize k) v ∈ found_entities lower d.
Proof.
  intros Hin Hc. unfold found_entities.
  apply list_elem_of_In, in_flat_map. exists (k, v). split.
  - apply list_elem_of_In, Hin.
  - simpl. rewrite Hc. left. reflexivity.
Qed.

End CoreFacts.

(** ** The risk deriver *)

Lemma triggered_filter dl (tbl : list (str * Risk)) :
  flat_map (risk_step dl []) tbl
  = map snd (List.filter (fun kv => contains kv.1 dl) tbl).
Proof.
  induction tbl as [|[k r] tbl IH]; simpl; [reflexivity|].
  destruct (contains k dl); simpl; rewrite IH; reflexivity.
Qed.

Lemma count_occ_NoDup_elem (l : list Risk) (r : Risk) :
  NoDup l -> r ∈ l -> count_occ Risk_eq_dec l r = 1%nat.
Proof.
  intros Hnd Hin.
  apply NoDup_ListNoDup in Hnd. apply list_elem_of_In in Hin.
  pose proof (proj1 (List.NoDup_count_occ Risk_eq_dec l) Hnd r) as Hle.
  pose proof (proj1 (count_occ_In Risk_eq_dec l r) Hin) as Hgt.
  lia.
Qed.

(** C3. Whatever the text, [generate_risks] returns at least three risks, and
    its first three entries are the fixed baseline risks, in their fixed
    order: performance (Medium, Medium), input-handling security (High,
    Medium), error handling (Medium, High). *)
Theorem generate_risks_baseline (lower : str -> str) (d : str) :
  (3 <= length (generate_risks lower d))%nat /\
  take 3 (generate_risks lower d) =
    [ mkRisk (py "Performance issues with large datasets") Medium Medium;
      mkRisk (py "Security vulnerabilities in user input handling") High Medium;
      mkRisk (py "Insufficient error handling causing poor user experience")
        Medium High ].
Proof.
  rewrite generate_risks_unfold. split.
  - rewrite length_app. unfold generic_risks. simpl. lia.
  - reflexivity.
Qed.

(** C2, as stated, fails: a duplicate entry is not possible in the output of
    [generate_risks], whatever [str.lower] does and whatever the text is. *)
Lemma generate_risks_duplicates_impossible :
  ~ (exists (lower : str -> str) (d : str), ~ NoDup (generate_risks lower d)).
Proof.
  intros (lower & d & H). apply H, generate_risks_NoDup.
Qed.

(** C2, amended. After the three baseline risks, [generate_risks] appends
    exactly the risks of the table rows whose keyword occurs in the
    lower-cased text, one per row and in table order, with no deduplication
    or capping step.  Each keyword is tested once and the thirteen risks are
    pairwise distinct, so the output has no duplicate entry and at most
    thirteen entries. *)
Theorem generate_risks_one_per_keyword (lower : str -> str) (d : str) :
  generate_risks lower d
  = generic_risks
    ++ map snd (List.filter (fun kv => contains kv.1 (lower d)) keyword_risks)
  /\ NoDup (generate_risks lower d)
  /\ (length (generate_risks lower d) <= 13)%nat.
Proof.
  split; [|split].
  - rewrite generate_risks_unfold. unfold triggered_risks.
    rewrite triggered_filter. reflexivity.
  - apply generate_risks_NoDup.
  - apply (sublist_length _ _ (generate_risks_sublist lower d)).
Qed.

(** C6. When the lower-cased text contains "payment", the output of
    [generate_risks] holds the risk ("Payment gateway integration failure",
    High, Low) exactly once, however often the keyword occurs. *)
Theorem payment_risk_exactly_once (lower : str -> str) (d : str) :
  contains (py "payment") (lower d) = true ->
  count_occ Risk_eq_dec (generate_risks lower d)
    (mkRisk (py "Payment gateway integration failure") High Low) = 1%nat.
Proof.
  intros Hc. apply count_occ_NoDup_elem; [apply generate_risks_NoDup|].
  rewrite generate_risks_unfold. apply elem_of_app. right.
  apply (triggered_risks_elem lower d (py "payment")); [|exact Hc].
  unfold keyword_risks. apply list_elem_of_here.
Qed.

Lemma payment_risk_exactly_once_witness :
  contains (py "payment")
    (lower_ascii_text (py "Payment by card; the PAYMENT is confirmed by mail"))
  = true /\
  count_occ Risk_eq_dec
    (generate_risks lower_ascii_text
       (py "Payment by card; the PAYMENT is confirmed by mail"))
    (mkRisk (py "Payment gateway integration failure") High Low) = 1%nat.
Proof.
  split; [vm_compute; reflexivity|].
  apply (payment_risk_exactly_once lower_ascii_text).
  vm_compute. reflexivity.
Defined.

(** ** The entity extractor *)

Lemma found_entities_none dl (tbl : list (str * str)) :
  Forall (fun kw => contains kw dl = false) (map fst tbl) ->
  flat_map (entity_step dl []) tbl = [].
Proof.
  induction tbl as [|[k v] tbl IH]; simpl; intros H; [reflexivity|].
  inversion H as [|? ? Hk Htl]; subst.
  rewrite Hk. simpl. apply IH, Htl.
Qed.

(** C5. Whatever the text, [extract_entities] returns at least one entity;
    when the lower-cased text contains none of the table keywords it returns
    the single entity "System" with the responsibilities "Handle core
    business logic and user interactions". *)
Theorem extract_entities_nonempty_default (lower : str -> str) (d : str) :
  extract_entities lower d <> [] /\
  (Forall (fun kw => contains kw (lower d) = false) (map fst entity_patterns) ->
   extract_entities lower d
   = [ mkEntity (py "System")
         (py "Handle core business logic and user interactions") ]).
Proof.
  rewrite extract_entities_unfold. split.
  - destruct (found_entities lower d); discriminate.
  - intros H. unfold found_entities.
    rewrite (found_entities_none _ _ H). reflexivity.
Qed.

Lemma extract_entities_nonempty_default_witness :
  Forall (fun kw => contains kw (lower_ascii_text (py "Hello, World")) = false)
    (map fst entity_patterns) /\
  extract_entities lower_ascii_text (py "Hello, World")
  = [ mkEntity (py "System")
        (py "Handle core business logic and user interactions") ].
Proof.
  assert (H : Forall
    (fun kw => contains kw (lower_ascii_text (py "Hello, World")) = false)
    (map fst entity_patterns)).
  { unfold entity_patterns. simpl map.
    repeat (constructor; [vm_compute; reflexivity|]). constructor. }
  split; [exact H|].
  exact (proj2 (extract_entities_nonempty_default lower_ascii_text
                  (py "Hello, World")) H).
Defined.

(** ** "database" in both tables *)

Lemma database_entity_row :
  Forall (fun kv : str * str =>
            mkEntity (capitalize kv.1) kv.2
            = mkEntity (py "Database")
                (py "Store data, handle queries, ensure integrity, manage backups") ->
            kv.1 = py "database")
    entity_patterns.
Proof. apply (bool_decide_unpack _). vm_compute. exact I. Qed.

Lemma database_risk_row :
  Forall (fun kv : str * Risk =>
            kv.2 = mkRisk (py "Database corruption or data loss") High Low ->
            kv.1 = py "database")
    keyword_risks.
Proof. apply (bool_decide_unpack _). vm_compute. exact I. Qed.

Lemma database_entity_found (lower : str -> str) (d : str) :
  mkEntity (py "Database")
    (py "Store data, handle queries, ensure integrity, manage backups")
    ∈ extract_entities lower d ->
  contains (py "database") (lower d) = true.
Proof.
  rewrite extract_entities_unfold. intros Hin.
  assert (Hf : mkEntity (py "Database")
            (py "Store data, handle queries, ensure integrity, manage backups")
            ∈ found_entities lower d).
  { destruct (found_entities lower d) as [|e l]; [|exact Hin].
    apply list_elem_of_singleton in Hin. vm_compute in Hin. discriminate. }
  apply list_elem_of_In, in_flat_map in Hf. destruct Hf as ([k v] & Hkv & He).
  pose proof (proj1 (Forall_forall _ _) database_entity_row (k, v)
                (proj2 (list_elem_of_In _ _) Hkv)) as Hrow.
  simpl in He, Hrow. destruct (contains k (lower d)) eqn:Hc; simpl in He.
  - destruct He as [He|[]]. rewrite <- (Hrow He). exact Hc.
  - destruct He.
Qed.

Lemma database_risk_found (lower : str -> str) (d : str) :
  mkRisk (py "Database corruption or data loss") High Low
    ∈ generate_risks lower d ->
  contains (py "database") (lower d) = true.
Proof.
  rewrite generate_risks_unfold. intros Hin.
  apply elem_of_app in Hin. destruct Hin as [Hin|Hin].
  - exfalso. revert Hin. apply (bool_decide_unpack _). vm_compute. exact I.
  - apply list_elem_of_In, in_flat_map in Hin. destruct Hin as ([k r] & Hkv & Hr).
    pose proof (proj1 (Forall_forall _ _) database_risk_row (k, r)
                  (proj2 (list_elem_of_In _ _) Hkv)) as Hrow.
    simpl in Hr, Hrow. destruct (contains k (lower d)) eqn:Hc; simpl in Hr.
    + destruct Hr as [Hr|[]]. rewrite <- (Hrow Hr). exact Hc.
    + destruct Hr.
Qed.

(** C7. When the lower-cased text contains "database", [extract_entities]
    returns an entity named "Database" and [generate_risks] returns the risk
    ("Database corruption or data loss", High, Low).  Each function consults
    its own table only: the entity is present exactly when the keyword
    occurs, and so is the risk, whatever else either table matches. *)
Theorem database_entity_and_risk (lower : str -> str) (d : str) :
  (contains (py "database") (lower d) = true ->
   (exists e, e ∈ extract_entities lower d /\ entity e = py "Database") /\
   mkRisk (py "Database corruption or data loss") High Low
     ∈ generate_risks lower d)
  /\ (mkEntity (py "Database")
        (py "Store data, handle queries, ensure integrity, manage backups")
        ∈ extract_entities lower d
      <-> contains (py "database") (lower d) = true)
  /\ (mkRisk (py "Database corruption or data loss") High Low
        ∈ generate_risks lower d
      <-> contains (py "database") (lower d) = true).
Proof.
  assert (He : contains (py "database") (lower d) = true ->
    mkEntity (py "Database")
      (py "Store data, handle queries, ensure integrity, manage backups")
      ∈ extract_entities lower d).
  { intros Hc. rewrite extract_entities_unfold.
    assert (Hf := found_entities_elem lower d (py "database")
              (py "Store data, handle queries, ensure integrity, manage backups")).
    destruct (found_entities lower d) as [|e l].
    - exfalso. eapply not_elem_of_nil. apply Hf; [|exact Hc].
      apply (bool_decide_unpack _). vm_compute. exact I.
    - apply Hf; [|exact Hc].
      apply (bool_decide_unpack _). vm_compute. exact I. }
  assert (Hr : contains (py "database") (lower d) = true ->
    mkRisk (py "Database corruption or data loss") High Low
      ∈ generate_risks lower d).
  { intros Hc. rewrite generate_risks_unfold. apply elem_of_app. right.
    apply (triggered_risks_elem lower d (py "database")); [|exact Hc].
    apply (bool_decide_unpack _). vm_compute. exact I. }
  split; [|split].
  - intros Hc. split; [|exact (Hr Hc)].
    eexists. split; [exact (He Hc)|reflexivity].
  - split; [apply database_entity_found|exact He].
  - split; [apply database_risk_found|exact Hr].
Qed.

Lemma database_entity_and_risk_witness :
  contains (py "database")
    (lower_ascii_text (py "The Database stores every project")) = true /\
  (exists e,
     e ∈ extract_entities lower_ascii_text
           (py "The Database stores every project")
     /\ entity e = py "Database") /\
  mkRisk (py "Database corruption or data loss") High Low
    ∈ generate_risks lower_ascii_text (py "The Database stores every project").
Proof.
  split; [vm_compute; reflexivity|].
  apply (proj1 (database_entity_and_risk lower_ascii_text
                  (py "The Database stores every project"))).
  vm_compute. reflexivity.
Defined.

(** The tables differ: "mobile" is a risk keyword and no entity keyword,
    "cart" is an entity keyword and no risk keyword. *)
Example mobile_risk_only :
  extract_entities lower_ascii_text (py "A mobile app") = [default_entity] /\
  generate_risks lower_ascii_text (py "A mobile app")
  = generic_risks
    ++ [mkRisk (py "Cross-platform compatibility issues") Medium High].
Proof. split; vm_compute; reflexivity. Qed.

Example cart_entity_only :
  extract_entities lower_ascii_text (py "Cartography")
  = [mkEntity (py "Cart")
       (py "Manage items, calculate totals, handle quantities, persist session")] /\
  generate_risks lower_ascii_text (py "Cartography") = generic_risks.
Proof. split; vm_compute; reflexivity. Qed.

(** ** The story synthesizer *)

Lemma lstrip_Forall (P : N -> Prop) (s : str) :
  Forall P s -> Forall P (lstrip s).
Proof.
  induction 1 as [|c s Hc Hs IH]; simpl; [constructor|].
  destruct (is_space c); [exact IH|constructor; assumption].
Qed.

Lemma strip_Forall (P : N -> Prop) (s : str) :
  Forall P s -> Forall P (strip s).
Proof.
  intros H. unfold strip, rstrip.
  apply Forall_rev, lstrip_Forall, Forall_rev, lstrip_Forall, H.
Qed.

Lemma loop_stories_blank (lower : str -> str) (segs : list str) :
  Forall (Forall (fun c => is_space c = true)) segs ->
  flat_map (story_step lower []) segs = [].
Proof.
  induction 1 as [|seg segs Hseg _ IH]; simpl; [reflexivity|].
  rewrite IH. unfold story_step. rewrite (strip_all_space seg Hseg).
  reflexivity.
Qed.

(** Where the two case mappings agree on the trimmed sentences, they give
    the same stories. *)
Lemma loop_stories_ext (lower lower' : str -> str) (segs : list str) :
  Forall (fun seg => lower (strip seg) = lower' (strip seg)) segs ->
  flat_map (story_step lower []) segs = flat_map (story_step lower' []) segs.
Proof.
  induction 1 as [|seg segs Hseg _ IH]; simpl; [reflexivity|].
  rewrite IH. unfold story_step. rewrite Hseg. reflexivity.
Qed.

Lemma generate_user_stories_ascii (lower : str -> str) (d : str) :
  agrees_on_ascii lower ->
  Forall is_ascii d ->
  generate_user_stories lower d = generate_user_stories lower_ascii_text d.
Proof.
  intros Hlow Hd. rewrite !generate_user_stories_unfold. unfold loop_stories.
  rewrite (loop_stories_ext lower lower_ascii_text); [reflexivity|].
  eapply Forall_impl; [apply (re_split_Forall is_ascii d Hd)|].
  intros seg Hseg. simpl. apply Hlow, strip_Forall, Hseg.
Qed.

(** C4. Whatever the text, [generate_user_stories] returns at least one
    story; for an empty or whitespace-only text it returns the default story
    alone. *)
Theorem generate_user_stories_nonempty_default (lower : str -> str) (d : str) :
  generate_user_stories lower d <> [] /\
  (Forall (fun c => is_space c = true) d ->
   generate_user_stories lower d
   = [ py "As a user, I want to use the system so that I can accomplish my tasks." ]).
Proof.
  rewrite generate_user_stories_unfold. split.
  - destruct (loop_stories lower d); discriminate.
  - intros Hd. unfold loop_stories.
    rewrite (loop_stories_blank lower); [reflexivity|].
    apply re_split_Forall, Hd.
Qed.

Lemma generate_user_stories_nonempty_default_witness :
  Forall (fun c => is_space c = true) ([32; 9; NL; 160; 32] : str) /\
  generate_user_stories lower_ascii_text [32; 9; NL; 160; 32]
  = [ py "As a user, I want to use the system so that I can accomplish my tasks." ].
Proof.
  assert (H : Forall (fun c => is_space c = true) ([32; 9; NL; 160; 32] : str)).
  { repeat (constructor; [reflexivity|]). constructor. }
  split; [exact H|].
  exact (proj2 (generate_user_stories_nonempty_default lower_ascii_text
                  [32; 9; NL; 160; 32]) H).
Defined.

(** C10. Every story returned by [generate_user_stories] starts with "As a
    user, I want to " and either ends with " so that I can accomplish my
    goals efficiently." or is the default story. *)
Theorem generate_user_stories_shape (lower : str -> str) (d s : str) :
  s ∈ generate_user_stories lower d ->
  startswith (py "As a user, I want to ") s = true /\
  (endswith (py " so that I can accomplish my goals efficiently.") s = true \/
   s = py "As a user, I want to use the system so that I can accomplish my tasks.").
Proof.
  rewrite generate_user_stories_unfold. intros Hin.
  assert (Hcase : s = default_story \/ s ∈ loop_stories lower d).
  { destruct (loop_stories lower d) as [|x l]; [|right; exact Hin].
    left. apply list_elem_of_singleton, Hin. }
  destruct Hcase as [->|Hloop].
  - split; [vm_compute; reflexivity|right; reflexivity].
  - apply list_elem_of_In, in_flat_map in Hloop.
    destruct Hloop as (seg & _ & Hs). unfold story_step in Hs.
    destruct (_ <? _)%nat; [destruct Hs|].
    destruct Hs as [<-|[]]. unfold story_of. split.
    + apply startswith_app.
    + left. rewrite app_assoc. apply endswith_app.
Qed.

Lemma generate_user_stories_shape_witness :
  py "As a user, I want to upload files so that I can accomplish my goals efficiently."
    ∈ generate_user_stories lower_ascii_text
        (py "The system should allow login. Users can upload files.") /\
  startswith (py "As a user, I want to ")
    (py "As a user, I want to upload files so that I can accomplish my goals efficiently.")
  = true.
Proof.
  assert (H :
    py "As a user, I want to upload files so that I can accomplish my goals efficiently."
      ∈ generate_user_stories lower_ascii_text
          (py "The system should allow login. Users can upload files.")).
  { apply (bool_decide_unpack _). vm_compute. exact I. }
  split; [exact H|].
  exact (proj1 (generate_user_stories_shape lower_ascii_text _ _ H)).
Defined.

(** C1, as stated, fails: the split consumes the final period, so the second
    story is not the one built from the action "upload files." *)
Lemma second_story_has_no_period :
  generate_user_stories lower_ascii_text
    (py "The system should allow login. Users can upload files.")
  <> [ story_of (py "allow login"); story_of (py "upload files.") ].
Proof. apply (bool_decide_unpack _). vm_compute. exact I. Qed.

(** C1, amended. On "The system should allow login. Users can upload
    files." [generate_user_stories] returns two stories in source order, built
    from the actions "allow login" (filler "the system should " removed) and
    "upload files" (filler "users can " removed, and no final period), each
    wrapped in the template.  [str.lower] is only assumed to lower-case ASCII
    text the usual way. *)
Theorem generate_user_stories_two_sentences (lower : str -> str) :
  agrees_on_ascii lower ->
  generate_user_stories lower
    (py "The system should allow login. Users can upload files.")
  = [ py "As a user, I want to allow login so that I can accomplish my goals efficiently.";
      py "As a user, I want to upload files so that I can accomplish my goals efficiently." ]
  /\ remove_prefix (py "the system should ")
       (lower (py "The system should allow login")) = Some (py "allow login")
  /\ remove_prefix (py "users can ")
       (lower (py "Users can upload files")) = Some (py "upload files").
Proof.
  intros Hlow. split; [|split].
  - rewrite (generate_user_stories_ascii lower _ Hlow).
    + vm_compute. reflexivity.
    + apply forallb_is_ascii. vm_compute. reflexivity.
  - rewrite Hlow; [vm_compute; reflexivity|].
    apply forallb_is_ascii. vm_compute. reflexivity.
  - rewrite Hlow; [vm_compute; reflexivity|].
    apply forallb_is_ascii. vm_compute. reflexivity.
Qed.

Lemma generate_user_stories_two_sentences_witness :
  agrees_on_ascii lower_ascii_text /\
  generate_user_stories lower_ascii_text
    (py "The system should allow login. Users can upload files.")
  = [ story_of (py "allow login"); story_of (py "upload files") ].
Proof.
  assert (H : agrees_on_ascii lower_ascii_text).
  { intros s _. reflexivity. }
  split; [exact H|].
  exact (proj1 (generate_user_stories_two_sentences lower_ascii_text H)).
Defined.

(** ** The routes *)

Lemma generate_user_stories_not_nil (lower : str -> str) (d : str) :
  generate_user_stories lower d <> [].
Proof.
  rewrite generate_user_stories_unfold.
  destruct (loop_stories lower d); discriminate.
Qed.

Section RouteFacts.

Variable lower : str -> str.

Lemma index_session w : session (index w).2 = session w.
Proof. reflexivity. Qed.

Lemma results_session w : session (results w).2 = session w.
Proof.
  unfold results, mbind, Handler_bind, session_get.
  destruct (py_not _); [reflexivity|].
  destruct (session w !! _) as [[| |]|]; reflexivity.
Qed.

Lemma export_session w : session (export_stories_pdf w).2 = session w.
Proof.
  unfold export_stories_pdf, mbind, Handler_bind, session_get.
  destruct (py_not _); [reflexivity|].
  destruct (session w !! _) as [v|]; [|reflexivity].
  destruct (pdf_accepts (iterate v)); reflexivity.
Qed.

Lemma demo_session w :
  session (demo w).2
  = <["demo_description"%string := VStr sample_description]> (session w).
Proof. reflexivity. Qed.

Lemma analyze_session form w :
  session (analyze lower form w).2
  = let description := strip (default [] (form !! "description"%string)) in
    if bool_decide (description = []) then session w
    else
      delete "demo_description"%string
        (<["user_stories"%string :=
             VStories (generate_user_stories lower description)]>
           (<["analysis"%string :=
                VAnalysis (mkAnalysis description
                             (generate_user_stories lower description)
                             (extract_entities lower description)
                             (generate_risks lower description))]>
              (session w))).
Proof.
  unfold analyze. cbv zeta. case_bool_decide; reflexivity.
Qed.

Lemma handle_session_inv r s t :
  session_inv s -> session_inv (session (handle lower r (mkWorld s t)).2).
Proof.
  intros Hinv. destruct r as [|form| | |]; simpl handle.
  - rewrite index_session. exact Hinv.
  - rewrite analyze_session. cbv zeta. case_bool_decide; [exact Hinv|].
    unfold session_inv. simpl session.
    rewrite !lookup_delete_ne by done.
    rewrite lookup_insert_ne by done.
    rewrite !lookup_insert_eq.
    split; [reflexivity|apply generate_user_stories_not_nil].
  - rewrite results_session. exact Hinv.
  - rewrite demo_session. unfold session_inv in *. simpl session.
    rewrite !lookup_insert_ne by done. exact Hinv.
  - rewrite export_session. exact Hinv.
Qed.

Lemma reachable_session_inv s : reachable lower s -> session_inv s.
Proof.
  induction 1 as [|s r t _ IH].
  - unfold session_inv. rewrite !lookup_empty. exact I.
  - apply handle_session_inv, IH.
Qed.

End RouteFacts.

(** C8. In a session that holds no analysis, the results route and the
    stories-export route both answer with a redirect to the index page; they
    leave the session as it is and make no call to the core, to the template
    renderer or to the file export. *)
Theorem no_analysis_redirects_to_index
    (lower : str -> str) (s : gmap string value) (t : list Event) :
  reachable lower s ->
  s !! "analysis"%string = None ->
  results (mkWorld s t) = (Redirect (url_for "index"), mkWorld s t) /\
  export_stories_pdf (mkWorld s t) = (Redirect (url_for "index"), mkWorld s t).
Proof.
  intros Hreach Hnone.
  pose proof (reachable_session_inv lower s Hreach) as Hinv.
  unfold session_inv in Hinv. rewrite Hnone in Hinv.
  destruct (s !! "user_stories"%string) as [v|] eqn:Hstories; [destruct Hinv|].
  split.
  - unfold results, mbind, Handler_bind, session_get. cbn [session].
    rewrite Hnone. reflexivity.
  - unfold export_stories_pdf, mbind, Handler_bind, session_get. cbn [session].
    rewrite Hstories. reflexivity.
Qed.

Lemma no_analysis_redirects_to_index_witness :
  reachable lower_ascii_text
    (<["demo_description"%string := VStr sample_description]> ∅) /\
  results
    (mkWorld (<["demo_description"%string := VStr sample_description]> ∅) [])
  = (Redirect "/",
     mkWorld (<["demo_description"%string := VStr sample_description]> ∅) []).
Proof.
  assert (H : reachable lower_ascii_text
                (<["demo_description"%string := VStr sample_description]> ∅)).
  { exact (reachable_step lower_ascii_text ∅ GET_demo [] (reachable_fresh _)). }
  split; [exact H|].
  apply (no_analysis_redirects_to_index lower_ascii_text _ [] H).
  reflexivity.
Defined.

(** * Further properties of the code *)

(** ** Splitting and trimming *)

Lemma re_split_from_concat (s : str) :
  forall in_run cur,
    (in_run = true -> cur = []) ->
    concat (re_split_from in_run cur s)
    = rev cur ++ List.filter (fun c => negb (is_sep c)) s.
Proof.
  induction s as [|c s IH]; intros in_run cur Hrun; simpl.
  - rewrite !app_nil_r. reflexivity.
  - destruct (is_sep c); simpl.
    + destruct in_run.
      * rewrite (Hrun eq_refl). apply IH. reflexivity.
      * simpl. rewrite IH by reflexivity. reflexivity.
    + rewrite IH by discriminate. simpl. rewrite <- app_assoc. reflexivity.
Qed.

Lemma re_split_from_length (s : str) :
  forall in_run cur,
    Forall (fun piece : str => (length piece <= length cur + length s)%nat)
      (re_split_from in_run cur s).
Proof.
  induction s as [|c s IH]; intros in_run cur; simpl.
  - constructor; [rewrite length_rev; lia|constructor].
  - destruct (is_sep c).
    + destruct in_run.
      * eapply Forall_impl; [apply (IH true [])|]. simpl. intros; lia.
      * constructor; [rewrite length_rev; lia|].
        eapply Forall_impl; [apply (IH true [])|]. simpl. intros; lia.
    + eapply Forall_impl; [apply (IH false (c :: cur))|]. simpl. intros; lia.
Qed.

Lemma re_split_from_no_sep (s : str) :
  Forall (fun c => is_sep c = false) s ->
  forall cur, re_split_from false cur s = [rev cur ++ s].
Proof.
  induction 1 as [|c s Hc _ IH]; intros cur; simpl.
  - rewrite app_nil_r. reflexivity.
  - rewrite Hc, IH. simpl. rewrite <- app_assoc. reflexivity.
Qed.

Lemma lstrip_length (s : str) : (length (lstrip s) <= length s)%nat.
Proof.
  induction s as [|c s IH]; simpl; [lia|].
  destruct (is_space c); simpl; lia.
Qed.

Lemma strip_length (s : str) : (length (strip s) <= length s)%nat.
Proof.
  unfold strip, rstrip. rewrite length_rev.
  pose proof (lstrip_length (rev (lstrip s))) as H1.
  rewrite length_rev in H1. pose proof (lstrip_length s). lia.
Qed.

(** [lstrip] stops at the first character that is no whitespace. *)
Lemma lstrip_app_stop (l r : str) (c : N) :
  is_space c = false -> lstrip (l ++ c :: r) = lstrip l ++ c :: r.
Proof.
  intros Hc. induction l as [|a l IH]; simpl.
  - rewrite Hc. reflexivity.
  - destruct (is_space a); [exact IH|reflexivity].
Qed.

Lemma lstrip_head (s : str) :
  match lstrip s with [] => True | c :: _ => is_space c = false end.
Proof.
  induction s as [|c s IH]; simpl; [exact I|].
  destruct (is_space c) eqn:Hc; [exact IH|exact Hc].
Qed.

Lemma lstrip_fixed (s : str) :
  match s with [] => True | c :: _ => is_space c = false end ->
  lstrip s = s.
Proof.
  destruct s as [|c s]; simpl; [reflexivity|]. intros ->. reflexivity.
Qed.

(** X1. The pieces [re.split(r'[.\n]+', …)] hands to the loop contain no
    period and no newline, and joined together they are the text with its
    periods and newlines removed: the split loses nothing else. *)
Theorem re_split_loses_separators_only (s : str) :
  Forall (Forall (fun c => is_sep c = false)) (re_split s) /\
  concat (re_split s) = List.filter (fun c => negb (is_sep c)) s.
Proof.
  split; [|apply (re_split_from_concat s false []); discriminate].
  assert (H : forall t in_run cur,
             Forall (fun c => is_sep c = false) cur ->
             Forall (Forall (fun c => is_sep c = false))
               (re_split_from in_run cur t)).
  { induction t as [|c t IH]; intros in_run cur Hcur; simpl.
    - constructor; [apply Forall_rev, Hcur|constructor].
    - destruct (is_sep c) eqn:Hc.
      + destruct in_run; [apply IH; constructor|].
        constructor; [apply Forall_rev, Hcur|apply IH; constructor].
      + apply IH. constructor; assumption. }
  apply H. constructor.
Qed.

Lemma strip_head (s : str) :
  match strip s with [] => True | c :: _ => is_space c = false end.
Proof.
  unfold strip, rstrip. pose proof (lstrip_head s) as Hh.
  destruct (lstrip s) as [|c t]; [exact I|].
  change (c :: t) with ([c] ++ t). rewrite rev_app_distr. simpl rev at 2.
  simpl app at 1. rewrite lstrip_app_stop by exact Hh.
  rewrite rev_app_distr. simpl. exact Hh.
Qed.

Lemma strip_last (s : str) :
  match rev (strip s) with [] => True | c :: _ => is_space c = false end.
Proof.
  unfold strip, rstrip. rewrite rev_involutive. apply lstrip_head.
Qed.

Lemma strip_idempotent (s : str) : strip (strip s) = strip s.
Proof.
  unfold strip at 1. rewrite (lstrip_fixed _ (strip_head s)).
  unfold rstrip. rewrite (lstrip_fixed _ (strip_last s)). apply rev_involutive.
Qed.

(** X2. [strip] leaves no whitespace at either end: its result neither starts
    nor ends with a whitespace character, and trimming it again changes
    nothing. *)
Theorem strip_trims_both_ends (s : str) :
  match strip s with [] => True | c :: _ => is_space c = false end /\
  match rev (strip s) with [] => True | c :: _ => is_space c = false end /\
  strip (strip s) = strip s.
Proof.
  split; [apply strip_head|]. split; [apply strip_last|apply strip_idempotent].
Qed.

(** ** More on the story synthesizer *)

Lemma loop_stories_short (lower : str -> str) (segs : list str) :
  Forall (fun seg => (length (strip seg) < 10)%nat) segs ->
  flat_map (story_step lower []) segs = [].
Proof.
  induction 1 as [|seg segs Hseg _ IH]; simpl; [reflexivity|].
  rewrite IH. unfold story_step.
  apply Nat.ltb_lt in Hseg. rewrite Hseg. reflexivity.
Qed.

Lemma startswith_split (p s : str) :
  startswith p s = true -> s = p ++ drop (length p) s.
Proof.
  revert s. induction p as [|a p IH]; intros s; simpl.
  - intros _. reflexivity.
  - destruct s as [|b s]; [discriminate|].
    intros H. apply andb_true_iff in H. destruct H as [Hab Hps].
    apply N.eqb_eq in Hab. subst b. simpl. f_equal. apply IH, Hps.
Qed.

Lemma re_sub_leading_first_match (alts : list str) (s : str) :
  (exists before p after,
      alts = before ++ p :: after /\
      Forall (fun q => startswith q s = false) before /\
      s = p ++ re_sub_leading alts s)
  \/ (Forall (fun q => startswith q s = false) alts /\
      re_sub_leading alts s = s).
Proof.
  induction alts as [|q alts IH]; simpl.
  - right. split; [constructor|reflexivity].
  - unfold remove_prefix. destruct (startswith q s) eqn:Hq.
    + left. exists [], q, alts. split; [reflexivity|].
      split; [constructor|]. apply startswith_split, Hq.
    + destruct IH as [(before & p & after & -> & Hb & Hs)|[Hall Hs]].
      * left. exists (q :: before), p, after. split; [reflexivity|].
        split; [constructor; assumption|exact Hs].
      * right. split; [constructor; assumption|exact Hs].
Qed.

Lemma story_of_not_default (action : str) : story_of action <> default_story.
Proof.
  intros H.
  assert (He : endswith story_tail (story_of action) = true).
  { unfold story_of. rewrite app_assoc. apply endswith_app. }
  rewrite H in He. vm_compute in He. discriminate.
Qed.

Lemma loop_stories_not_default (lower : str -> str) (d : str) :
  loop_stories lower d <> [default_story].
Proof.
  intros H.
  assert (Hin : In default_story (loop_stories lower d)).
  { rewrite H. left. reflexivity. }
  apply in_flat_map in Hin. destruct Hin as (seg & _ & Hs).
  unfold story_step in Hs. destruct (_ <? _)%nat; [destruct Hs|].
  destruct Hs as [Hs|[]]. exact (story_of_not_default _ Hs).
Qed.

(** The loop collected nothing exactly when the result is the default. *)
Lemma generate_user_stories_default_iff (lower : str -> str) (d : str) :
  generate_user_stories lower d = [default_story] <-> loop_stories lower d = [].
Proof.
  rewrite generate_user_stories_unfold. split.
  - destruct (loop_stories lower d) as [|x l] eqn:Hl; [reflexivity|].
    intros H. exfalso. apply (loop_stories_not_default lower d).
    rewrite Hl. exact H.
  - intros ->. reflexivity.
Qed.

(** After a separator run has started, whether it is recorded as started
    makes no difference for the stories: the empty piece gives none. *)
Lemma stories_after_run (lower : str -> str) (s : str) :
  flat_map (story_step lower []) (re_split_from true [] s)
  = flat_map (story_step lower []) (re_split_from false [] s).
Proof.
  destruct s as [|c s]; simpl; [reflexivity|].
  destruct (is_sep c); reflexivity.
Qed.

Lemma stories_split_at_separator (lower : str -> str) (c : N) (d2 : str) :
  is_sep c = true ->
  forall (d1 : str) in_run cur,
    (in_run = true -> cur = []) ->
    flat_map (story_step lower []) (re_split_from in_run cur (d1 ++ c :: d2))
    = flat_map (story_step lower []) (re_split_from in_run cur d1)
      ++ flat_map (story_step lower []) (re_split d2).
Proof.
  intros Hc. induction d1 as [|a d1 IH]; intros in_run cur Hrun.
  - simpl app at 1. simpl re_split_from. rewrite Hc. destruct in_run.
    + rewrite (Hrun eq_refl). rewrite stories_after_run. reflexivity.
    + simpl. rewrite stories_after_run, app_nil_r. reflexivity.
  - simpl. destruct (is_sep a).
    + destruct in_run.
      * apply IH. reflexivity.
      * simpl. rewrite IH by reflexivity. apply app_assoc.
    + apply IH. discriminate.
Qed.

(** X3. A text of fewer than ten code points gives the default story and
    nothing else, whatever it contains. *)
Theorem short_text_gives_default_story (lower : str -> str) (d : str) :
  (length d < 10)%nat ->
  generate_user_stories lower d = [default_story].
Proof.
  intros Hlen. apply generate_user_stories_default_iff. unfold loop_stories.
  apply loop_stories_short.
  eapply Forall_impl; [apply (re_split_from_length d false [])|].
  simpl. intros seg Hseg. pose proof (strip_length seg). lia.
Qed.

Lemma short_text_gives_default_story_witness :
  (length (py "Hi.") < 10)%nat /\
  generate_user_stories lower_ascii_text (py "Hi.") = [default_story].
Proof.
  assert (H : (length (py "Hi.") < 10)%nat) by (simpl; lia).
  split; [exact H|].
  exact (short_text_gives_default_story lower_ascii_text (py "Hi.") H).
Defined.

(** X4. For a text without period and newline the whole trimmed text is the
    one sentence: it gives the default story when shorter than ten code
    points after trimming, and otherwise the single story built from its
    lower-cased form with a leading filler removed. *)
Theorem single_sentence_story (lower : str -> str) (d : str) :
  Forall (fun c => is_sep c = false) d ->
  generate_user_stories lower d
  = if (length (strip d) <? 10)%nat then [default_story]
    else [story_head
          ++ re_sub_leading filler_prefixes (lower (strip d))
          ++ story_tail].
Proof.
  intros Hd. unfold generate_user_stories, re_split.
  rewrite (re_split_from_no_sep d Hd []). simpl.
  unfold story_step. destruct (_ <? _)%nat; reflexivity.
Qed.

Lemma single_sentence_story_witness :
  Forall (fun c => is_sep c = false) (py "  It should export reports  ") /\
  generate_user_stories lower_ascii_text (py "  It should export reports  ")
  = [py "As a user, I want to export reports so that I can accomplish my goals efficiently."].
Proof.
  assert (H : Forall (fun c => is_sep c = false)
                (py "  It should export reports  ")).
  { apply Forall_forall. intros c Hc. revert c Hc.
    apply Forall_forall. apply (bool_decide_unpack _). vm_compute. exact I. }
  split; [exact H|].
  exact (single_sentence_story lower_ascii_text _ H).
Defined.

(** X5. Joining two texts with a period or a newline joins their stories:
    the result holds the stories of the first text followed by those of the
    second, and the default story only stands in for a part that has none
    when the other has none either. *)
Theorem stories_of_joined_texts (lower : str -> str) (d1 d2 : str) (c : N) :
  is_sep c = true ->
  generate_user_stories lower (d1 ++ c :: d2)
  = if bool_decide (generate_user_stories lower d1 = [default_story])
    then generate_user_stories lower d2
    else if bool_decide (generate_user_stories lower d2 = [default_story])
    then generate_user_stories lower d1
    else generate_user_stories lower d1 ++ generate_user_stories lower d2.
Proof.
  intros Hc.
  assert (Hjoin : loop_stories lower (d1 ++ c :: d2)
                  = loop_stories lower d1 ++ loop_stories lower d2).
  { unfold loop_stories, re_split.
    apply (stories_split_at_separator lower c d2 Hc d1 false []). discriminate. }
  pose proof (generate_user_stories_default_iff lower d1) as H1.
  pose proof (generate_user_stories_default_iff lower d2) as H2.
  repeat case_bool_decide.
  - match goal with H : _ = [default_story] |- _ => apply H1 in H; rename H into E1 end.
    rewrite !generate_user_stories_unfold, Hjoin, E1. reflexivity.
  - match goal with H : generate_user_stories lower d2 = _ |- _ =>
      apply H2 in H; rename H into E2 end.
    rewrite !generate_user_stories_unfold, Hjoin, E2, app_nil_r. reflexivity.
  - rewrite !generate_user_stories_unfold, Hjoin.
    destruct (loop_stories lower d1) as [|x l1] eqn:E1.
    { exfalso. tauto. }
    destruct (loop_stories lower d2) as [|y l2] eqn:E2.
    { exfalso. tauto. }
    reflexivity.
Qed.

Lemma stories_of_joined_texts_witness :
  is_sep NL = true /\
  generate_user_stories lower_ascii_text
    (py "Users can create projects" ++ NL :: py "Admins can view reports")
  = [py "As a user, I want to create projects so that I can accomplish my goals efficiently.";
     py "As a user, I want to admins can view reports so that I can accomplish my goals efficiently."].
Proof.
  split; [reflexivity|].
  rewrite (stories_of_joined_texts lower_ascii_text
             (py "Users can create projects") (py "Admins can view reports")
             NL eq_refl).
  vm_compute. reflexivity.
Defined.

(** X6. The substitution removes at most one filler, and only from the very
    start: either the sentence is the first alternative it starts with (in
    the order of the pattern) followed by the result, or it starts with none
    of them and is returned unchanged. *)
Theorem filler_removed_once_from_start (s : str) :
  (exists before p after,
      filler_prefixes = before ++ p :: after /\
      Forall (fun q => startswith q s = false) before /\
      s = p ++ re_sub_leading filler_prefixes s)
  \/ (Forall (fun q => startswith q s = false) filler_prefixes /\
      re_sub_leading filler_prefixes s = s).
Proof. apply re_sub_leading_first_match. Qed.

(** ** More on the entity extractor and the risk deriver *)

Lemma found_entities_sublist dl (tbl : list (str * str)) :
  flat_map (entity_step dl []) tbl
  `sublist_of` map (fun kv => mkEntity (capitalize kv.1) kv.2) tbl.
Proof.
  induction tbl as [|[k v] tbl IH]; simpl; [constructor|].
  destruct (contains k dl); simpl.
  - apply sublist_skip, IH.
  - apply sublist_cons, IH.
Qed.

Lemma entity_rows_NoDup :
  NoDup (map (fun kv : str * str => mkEntity (capitalize kv.1) kv.2)
           entity_patterns).
Proof. apply (bool_decide_unpack _). vm_compute. exact I. Qed.

Lemma entity_rows_not_default :
  Forall (fun kv : str * str =>
            mkEntity (capitalize kv.1) kv.2 <> default_entity)
    entity_patterns.
Proof. apply (bool_decide_unpack _). vm_compute. exact I. Qed.

Lemma entity_rows_injective :
  Forall (fun kv1 : str * str =>
            Forall (fun kv2 : str * str =>
                      mkEntity (capitalize kv1.1) kv1.2
                      = mkEntity (capitalize kv2.1) kv2.2 ->
                      kv1.1 = kv2.1)
              entity_patterns)
    entity_patterns.
Proof. apply (bool_decide_unpack _). vm_compute. exact I. Qed.

Lemma risk_rows_injective :
  Forall (fun kv1 : str * Risk =>
            Forall (fun kv2 : str * Risk => kv1.2 = kv2.2 -> kv1.1 = kv2.1)
              keyword_risks)
    keyword_risks.
Proof. apply (bool_decide_unpack _). vm_compute. exact I. Qed.

Lemma risk_rows_not_generic :
  Forall (fun kv : str * Risk => kv.2 ∉ generic_risks) keyword_risks.
Proof. apply (bool_decide_unpack _). vm_compute. exact I. Qed.

Lemma contains_app (k pre post : str) : contains k (pre ++ k ++ post) = true.
Proof.
  induction pre as [|a pre IH]; simpl.
  - pose proof (startswith_app k post) as Hs.
    destruct (k ++ post); simpl; rewrite Hs; reflexivity.
  - rewrite IH. apply orb_true_r.
Qed.

(** X7. A row of [entity_patterns] is reported, under its capitalised
    keyword and with its own responsibilities, exactly when its keyword occurs
    in the lower-cased text; what the other rows match has no influence. *)
Theorem entity_listed_iff_keyword_found
    (lower : str -> str) (d k v : str) :
  (k, v) ∈ entity_patterns ->
  (mkEntity (capitalize k) v ∈ extract_entities lower d
   <-> contains k (lower d) = true).
Proof.
  intros Hrow. split.
  - rewrite extract_entities_unfold. intros Hin.
    assert (Hf : mkEntity (capitalize k) v ∈ found_entities lower d).
    { destruct (found_entities lower d) as [|e l]; [|exact Hin].
      apply list_elem_of_singleton in Hin. exfalso.
      exact (proj1 (Forall_forall _ _) entity_rows_not_default (k, v) Hrow Hin). }
    apply list_elem_of_In, in_flat_map in Hf.
    destruct Hf as ([k' v'] & Hrow' & He).
    apply list_elem_of_In in Hrow'.
    simpl in He. destruct (contains k' (lower d)) eqn:Hc; simpl in He;
      [|destruct He].
    destruct He as [He|[]].
    pose proof (proj1 (Forall_forall _ _)
                  (proj1 (Forall_forall _ _) entity_rows_injective (k', v') Hrow')
                  (k, v) Hrow He) as Hk.
    simpl in Hk. subst k'. exact Hc.
  - intros Hc. rewrite extract_entities_unfold.
    pose proof (found_entities_elem lower d k v Hrow Hc) as Hf.
    destruct (found_entities lower d) as [|e l]; [|exact Hf].
    exfalso. exact (not_elem_of_nil _ Hf).
Qed.

Lemma entity_listed_iff_keyword_found_witness :
  (py "task", py "Track status, assign owners, set deadlines, manage dependencies")
    ∈ entity_patterns /\
  (mkEntity (py "Task")
     (py "Track status, assign owners, set deadlines, manage dependencies")
     ∈ extract_entities lower_ascii_text (py "Multitasking is hard")
   <-> contains (py "task") (lower_ascii_text (py "Multitasking is hard")) = true).
Proof.
  assert (H : (py "task",
               py "Track status, assign owners, set deadlines, manage dependencies")
                ∈ entity_patterns).
  { apply (bool_decide_unpack _). vm_compute. exact I. }
  split; [exact H|].
  exact (entity_listed_iff_keyword_found lower_ascii_text
           (py "Multitasking is hard") _ _ H).
Defined.

(** X8. [extract_entities] never reports an entity twice and reports at most
    twenty; unless it is the default entity alone, the result lists table
    rows in the order of the table. *)
Theorem extract_entities_distinct_in_table_order
    (lower : str -> str) (d : str) :
  NoDup (extract_entities lower d) /\
  (length (extract_entities lower d) <= 20)%nat /\
  (extract_entities lower d = [default_entity] \/
   extract_entities lower d
   `sublist_of` map (fun kv => mkEntity (capitalize kv.1) kv.2) entity_patterns).
Proof.
  rewrite extract_entities_unfold.
  pose proof (found_entities_sublist (lower d) entity_patterns) as Hsub.
  fold (found_entities lower d) in Hsub.
  destruct (found_entities lower d) as [|e l] eqn:Hf.
  - split; [apply NoDup_singleton|]. split; [simpl; lia|left; reflexivity].
  - split; [exact (sublist_NoDup _ _ entity_rows_NoDup Hsub)|].
    split; [|right; exact Hsub].
    apply sublist_length in Hsub. rewrite length_map in Hsub. exact Hsub.
Qed.

(** X9. Matching is by substring, not by word: a keyword that occurs anywhere
    in the lower-cased text, also inside a longer word, triggers its entity
    and its risk. *)
Theorem keyword_matches_inside_words
    (lower : str -> str) (d pre post k : str) :
  lower d = pre ++ k ++ post ->
  (forall v, (k, v) ∈ entity_patterns ->
             mkEntity (capitalize k) v ∈ extract_entities lower d) /\
  (forall r, (k, r) ∈ keyword_risks -> r ∈ generate_risks lower d).
Proof.
  intros Hd.
  assert (Hc : contains k (lower d) = true).
  { rewrite Hd. apply contains_app. }
  split.
  - intros v Hrow. rewrite extract_entities_unfold.
    pose proof (found_entities_elem lower d k v Hrow Hc) as Hf.
    destruct (found_entities lower d) as [|e l]; [|exact Hf].
    exfalso. exact (not_elem_of_nil _ Hf).
  - intros r Hrow. rewrite generate_risks_unfold. apply elem_of_app. right.
    exact (triggered_risks_elem lower d k r Hrow Hc).
Qed.

Lemma keyword_matches_inside_words_witness :
  lower_ascii_text (py "Capital cities") = py "c" ++ py "api" ++ py "tal cities" /\
  mkRisk (py "API rate limiting and availability issues") Medium Medium
    ∈ generate_risks lower_ascii_text (py "Capital cities").
Proof.
  assert (H : lower_ascii_text (py "Capital cities")
              = py "c" ++ py "api" ++ py "tal cities") by reflexivity.
  split; [exact H|].
  apply (proj2 (keyword_matches_inside_words lower_ascii_text
                  (py "Capital cities") (py "c") (py "tal cities") (py "api") H)).
  apply (bool_decide_unpack _). vm_compute. exact I.
Defined.

(** X10. A keyword-triggered risk is listed exactly when its own keyword
    occurs in the lower-cased text. *)
Theorem risk_listed_iff_keyword_found
    (lower : str -> str) (d k : str) (r : Risk) :
  (k, r) ∈ keyword_risks ->
  (r ∈ generate_risks lower d <-> contains k (lower d) = true).
Proof.
  intros Hrow. split.
  - rewrite generate_risks_unfold. intros Hin.
    apply elem_of_app in Hin. destruct Hin as [Hin|Hin].
    + exfalso.
      exact (proj1 (Forall_forall _ _) risk_rows_not_generic (k, r) Hrow Hin).
    + apply list_elem_of_In, in_flat_map in Hin.
      destruct Hin as ([k' r'] & Hrow' & Hr).
      apply list_elem_of_In in Hrow'.
      simpl in Hr. destruct (contains k' (lower d)) eqn:Hc; simpl in Hr;
        [|destruct Hr].
      destruct Hr as [Hr|[]].
      pose proof (proj1 (Forall_forall _ _)
                    (proj1 (Forall_forall _ _) risk_rows_injective (k', r') Hrow')
                    (k, r) Hrow Hr) as Hk.
      simpl in Hk. subst k'. exact Hc.
  - intros Hc. rewrite generate_risks_unfold. apply elem_of_app. right.
    exact (triggered_risks_elem lower d k r Hrow Hc).
Qed.

Lemma risk_listed_iff_keyword_found_witness :
  (py "upload", mkRisk (py "Malicious file upload vulnerability") High Medium)
    ∈ keyword_risks /\
  (mkRisk (py "Malicious file upload vulnerability") High Medium
     ∈ generate_risks lower_ascii_text (py "Users can UPLOAD files")
   <-> contains (py "upload") (lower_ascii_text (py "Users can UPLOAD files"))
       = true).
Proof.
  assert (H : (py "upload",
               mkRisk (py "Malicious file upload vulnerability") High Medium)
                ∈ keyword_risks).
  { apply (bool_decide_unpack _). vm_compute. exact I. }
  split; [exact H|].
  exact (risk_listed_iff_keyword_found lower_ascii_text
           (py "Users can UPLOAD files") _ _ H).
Defined.

(** X11. Every risk returned rates impact and likelihood with one of "High",
    "Medium" and "Low". *)
Theorem risk_levels_enumerated (lower : str -> str) (d : str) :
  Forall (fun r => impact r ∈ [High; Medium; Low]
                   /\ likelihood r ∈ [High; Medium; Low])
    (generate_risks lower d).
Proof.
  apply Forall_forall. intros r Hr.
  pose proof (elem_of_sublist _ _ _ Hr (generate_risks_sublist lower d)) as Hall.
  clear Hr. revert r Hall. apply Forall_forall.
  apply (bool_decide_unpack _). vm_compute. exact I.
Qed.

(** ** More on the routes *)

Section RouteComposition.

Variable lower : str -> str.

Lemma analyze_blank form w :
  strip (default [] (form !! "description"%string)) = [] ->
  analyze lower form w = (Redirect (url_for "index"), w).
Proof.
  intros Hd. unfold analyze. cbv zeta. rewrite Hd. reflexivity.
Qed.

Lemma analyze_nonblank form w :
  let d := strip (default [] (form !! "description"%string)) in
  d <> [] ->
  analyze lower form w
  = (Redirect (url_for "results"),
     mkWorld (analysed_session lower d (session w))
       (trace w ++ [CoreCall "generate_user_stories" d;
                    CoreCall "extract_entities" d;
                    CoreCall "generate_risks" d])).
Proof.
  intros d Hd. unfold analyze. cbv zeta. fold d.
  rewrite bool_decide_eq_false_2 by exact Hd.
  unfold call_generate_user_stories, call_extract_entities,
    call_generate_risks, emit, session_set, session_pop, redirect,
    analysed_session.
  unfold mbind, Handler_bind, mret, Handler_ret. cbv beta iota.
  cbn [session trace]. rewrite <- !app_assoc. reflexivity.
Qed.

Lemma results_of_analysis s t a :
  s !! "analysis"%string = Some (VAnalysis a) ->
  results (mkWorld s t)
  = (RenderTemplate "results.html"
       (ResultsContext (a_description a) (a_user_stories a)
          (a_entities a) (a_risks a)),
     mkWorld s (t ++ [TemplateRendered "results.html"])).
Proof.
  intros Ha. unfold results, mbind, Handler_bind, session_get. cbn [session].
  rewrite Ha. reflexivity.
Qed.

Lemma export_of_stories s t l :
  l <> [] ->
  s !! "user_stories"%string = Some (VStories l) ->
  export_stories_pdf (mkWorld s t)
  = if pdf_accepts l
    then (SendFile (stories_pdf l) "specgenie_user_stories.pdf"
            "application/pdf",
          mkWorld s (t ++ [FileSent "specgenie_user_stories.pdf"]))
    else (InternalServerError, mkWorld s t).
Proof.
  intros Hl Hs. unfold export_stories_pdf, mbind, Handler_bind, session_get.
  cbn [session]. rewrite Hs. cbn [py_not truthy].
  rewrite bool_decide_eq_false_2 by exact Hl. cbn [negb iterate].
  destruct (pdf_accepts l); reflexivity.
Qed.

Lemma latin1_app (a b : str) : latin1 (a ++ b) = latin1 a && latin1 b.
Proof. unfold latin1. apply forallb_app. Qed.

(** The prefix "- " is latin-1, so the loop succeeds exactly when every
    story is latin-1. *)
Lemma pdf_accepts_latin1 (l : list str) : pdf_accepts l = forallb latin1 l.
Proof.
  unfold pdf_accepts. induction l as [|x l IH]; [reflexivity|].
  cbn [forallb]. rewrite IH, latin1_app. reflexivity.
Qed.

Lemma index_response w :
  (index w).1
  = RenderTemplate "index.html"
      (IndexContext (default (VStr []) (session w !! "demo_description"%string))).
Proof. reflexivity. Qed.

Lemma analysed_session_lookup d s :
  analysed_session lower d s !! "analysis"%string
  = Some (VAnalysis (mkAnalysis d (generate_user_stories lower d)
                       (extract_entities lower d) (generate_risks lower d)))
  /\ analysed_session lower d s !! "user_stories"%string
     = Some (VStories (generate_user_stories lower d))
  /\ analysed_session lower d s !! "demo_description"%string = None.
Proof.
  unfold analysed_session. split; [|split].
  - rewrite lookup_delete_ne by done. rewrite lookup_insert_ne by done.
    apply lookup_insert_eq.
  - rewrite lookup_delete_ne by done. apply lookup_insert_eq.
  - apply lookup_delete_eq.
Qed.

End RouteComposition.

(** X12. A submission whose description is missing, empty or made of
    whitespace only is answered with a redirect to the index page; the
    session, and with it an earlier analysis, stays as it was, and the core
    is not called. *)
Theorem blank_submission_changes_nothing
    (lower : str -> str) (form : gmap string str) (w : World) :
  Forall (fun c => is_space c = true)
    (default [] (form !! "description"%string)) ->
  analyze lower form w = (Redirect (url_for "index"), w).
Proof.
  intros Hblank. apply analyze_blank, strip_all_space, Hblank.
Qed.

Lemma blank_submission_changes_nothing_witness :
  Forall (fun c => is_space c = true)
    (default [] ((∅ : gmap string str) !! "description"%string)) /\
  analyze lower_ascii_text ∅ (mkWorld ∅ []) = (Redirect "/", mkWorld ∅ []).
Proof.
  assert (H : Forall (fun c => is_space c = true)
                (default [] ((∅ : gmap string str) !! "description"%string))).
  { rewrite lookup_empty. constructor. }
  split; [exact H|].
  exact (blank_submission_changes_nothing lower_ascii_text ∅ (mkWorld ∅ []) H).
Defined.

(** X13. After a submission that is not blank, the results route renders
    "results.html" with the trimmed description and with the stories,
    entities and risks of that trimmed description, whatever the session held
    before; the core was called once per function, in the order stories,
    entities, risks. *)
Theorem results_show_submitted_analysis
    (lower : str -> str) (form : gmap string str) (w : World) :
  let d := strip (default [] (form !! "description"%string)) in
  d <> [] ->
  (analyze lower form w).1 = Redirect (url_for "results") /\
  (results (analyze lower form w).2).1
  = RenderTemplate "results.html"
      (ResultsContext d (generate_user_stories lower d)
         (extract_entities lower d) (generate_risks lower d)) /\
  trace (results (analyze lower form w).2).2
  = trace w ++ [CoreCall "generate_user_stories" d;
                CoreCall "extract_entities" d;
                CoreCall "generate_risks" d;
                TemplateRendered "results.html"].
Proof.
  intros d Hd. rewrite (analyze_nonblank lower form w Hd). fold d.
  cbn [fst snd].
  rewrite (results_of_analysis _ _ _
             (proj1 (analysed_session_lookup lower d (session w)))).
  cbn [fst snd trace a_description a_user_stories a_entities a_risks].
  split; [reflexivity|]. split; [reflexivity|].
  rewrite <- app_assoc. reflexivity.
Qed.

Lemma results_show_submitted_analysis_witness :
  strip (default [] (({[ "description"%string := py " Users can pay by card. " ]}
                        : gmap string str) !! "description"%string)) <> [] /\
  (results (analyze lower_ascii_text
              {[ "description"%string := py " Users can pay by card. " ]}
              (mkWorld ∅ [])).2).1
  = RenderTemplate "results.html"
      (ResultsContext (py "Users can pay by card.")
         [py "As a user, I want to pay by card so that I can accomplish my goals efficiently."]
         [mkEntity (py "User")
            (py "Authenticate, view content, perform actions, manage profile")]
         generic_risks).
Proof.
  assert (H : strip (default []
                (({[ "description"%string := py " Users can pay by card. " ]}
                    : gmap string str) !! "description"%string)) <> []).
  { rewrite lookup_singleton_eq. vm_compute. discriminate. }
  split; [exact H|].
  rewrite (proj1 (proj2 (results_show_submitted_analysis lower_ascii_text
                           {[ "description"%string := py " Users can pay by card. " ]}
                           (mkWorld ∅ []) H))).
  rewrite lookup_singleton_eq. vm_compute. reflexivity.
Defined.

(** X14. After a submission that is not blank, the export route builds its
    document from the title line followed, for each story of the trimmed
    description and in order, by one paragraph "- " + story, and hands it to
    [send_file] under the name "specgenie_user_stories.pdf", provided every
    story is latin-1 text; if a story holds a code point above 255 the route
    answers with a server error and sends nothing. *)
Theorem export_shows_submitted_stories
    (lower : str -> str) (form : gmap string str) (w : World) :
  let d := strip (default [] (form !! "description"%string)) in
  d <> [] ->
  (export_stories_pdf (analyze lower form w).2).1
  = (if forallb latin1 (generate_user_stories lower d)
     then SendFile
            ([AddPage; SetFont "Arial" 12;
              Cell 0 10 (py "SpecGenie - User Stories") true; Ln 5]
             ++ flat_map (fun s => [MultiCell 0 8 (py "- " ++ s); Ln 1])
                  (generate_user_stories lower d))
            "specgenie_user_stories.pdf" "application/pdf"
     else InternalServerError) /\
  trace (export_stories_pdf (analyze lower form w).2).2
  = trace (analyze lower form w).2
    ++ (if forallb latin1 (generate_user_stories lower d)
        then [FileSent "specgenie_user_stories.pdf"] else []).
Proof.
  intros d Hd. rewrite (analyze_nonblank lower form w Hd). fold d.
  cbn [fst snd].
  rewrite (export_of_stories _ _ (generate_user_stories lower d)
             (generate_user_stories_not_nil lower d)
             (proj1 (proj2 (analysed_session_lookup lower d (session w))))).
  rewrite pdf_accepts_latin1.
  destruct (forallb latin1 (generate_user_stories lower d)); cbn [fst snd trace].
  - split; reflexivity.
  - split; [reflexivity|]. symmetry. apply app_nil_r.
Qed.

Lemma export_shows_submitted_stories_witness :
  strip (default [] (({[ "description"%string := py " Users can pay by card. " ]}
                        : gmap string str) !! "description"%string)) <> [] /\
  (export_stories_pdf
     (analyze lower_ascii_text
        {[ "description"%string := py " Users can pay by card. " ]}
        (mkWorld ∅ [])).2).1
  = SendFile
      [AddPage; SetFont "Arial" 12;
       Cell 0 10 (py "SpecGenie - User Stories") true; Ln 5;
       MultiCell 0 8
         (py "- As a user, I want to pay by card so that I can accomplish my goals efficiently.");
       Ln 1]
      "specgenie_user_stories.pdf" "application/pdf".
Proof.
  assert (H : strip (default []
                (({[ "description"%string := py " Users can pay by card. " ]}
                    : gmap string str) !! "description"%string)) <> []).
  { rewrite lookup_singleton_eq. vm_compute. discriminate. }
  split; [exact H|].
  rewrite (proj1 (export_shows_submitted_stories lower_ascii_text
                    {[ "description"%string := py " Users can pay by card. " ]}
                    (mkWorld ∅ []) H)).
  rewrite lookup_singleton_eq. vm_compute. reflexivity.
Defined.

(** A story with the euro sign (code point 8364) stops the export. *)
Example export_fails_outside_latin1 :
  (export_stories_pdf
     (analyze lower_ascii_text
        {[ "description"%string := py "Users can pay 5 " ++ [8364] ++ py " by card" ]}
        (mkWorld ∅ [])).2)
  = (InternalServerError,
     (analyze lower_ascii_text
        {[ "description"%string := py "Users can pay 5 " ++ [8364] ++ py " by card" ]}
        (mkWorld ∅ [])).2).
Proof. vm_compute. reflexivity. Qed.

(** X15. After the demo route the index page is pre-filled with the sample
    description; a submission that is not blank clears it, so that the index
    page is then rendered with the empty description. *)
Theorem demo_prefills_index_until_analysis
    (lower : str -> str) (form : gmap string str) (w : World) :
  (demo w).1 = Redirect (url_for "index") /\
  (index (demo w).2).1
  = RenderTemplate "index.html" (IndexContext (VStr sample_description)) /\
  (strip (default [] (form !! "description"%string)) <> [] ->
   (index (analyze lower form (demo w).2).2).1
   = RenderTemplate "index.html" (IndexContext (VStr []))).
Proof.
  split; [reflexivity|]. split.
  - rewrite index_response, demo_session, lookup_insert_eq. reflexivity.
  - intros Hd. rewrite index_response.
    rewrite (analyze_nonblank lower form (demo w).2 Hd). cbn [snd session].
    rewrite (proj2 (proj2 (analysed_session_lookup lower _ _))). reflexivity.
Qed.

Lemma demo_prefills_index_until_analysis_witness :
  strip (default [] (({[ "description"%string := py " Users can pay by card. " ]}
                        : gmap string str) !! "description"%string)) <> [] /\
  (index (analyze lower_ascii_text
            {[ "description"%string := py " Users can pay by card. " ]}
            (demo (mkWorld ∅ [])).2).2).1
  = RenderTemplate "index.html" (IndexContext (VStr [])).
Proof.
  assert (H : strip (default []
                (({[ "description"%string := py " Users can pay by card. " ]}
                    : gmap string str) !! "description"%string)) <> []).
  { rewrite lookup_singleton_eq. vm_compute. discriminate. }
  split; [exact H|].
  exact (proj2 (proj2 (demo_prefills_index_until_analysis lower_ascii_text
                         {[ "description"%string := py " Users can pay by card. " ]}
                         (mkWorld ∅ []))) H).
Defined.



(** ** Sessions left by the routes *)

Section Sessions.

Variable lower : str -> str.

Lemma handle_session_analysed r s t :
  session_analysed lower s ->
  session_analysed lower (session (handle lower r (mkWorld s t)).2).
Proof.
  intros Hinv. destruct r as [|form| | |]; simpl handle.
  - rewrite index_session. exact Hinv.
  - rewrite analyze_session. cbv zeta. case_bool_decide as Hd; [exact Hinv|].
    cbn [session].
    destruct (analysed_session_lookup lower
                (strip (default [] (form !! "description"%string))) s)
      as (Ha & Hs & Hdemo).
    unfold analysed_session in Ha, Hs, Hdemo.
    unfold session_analysed. rewrite Ha. split; [|left; exact Hdemo].
    eexists. split; [exact Hd|]. split; [apply strip_idempotent|].
    split; [reflexivity|exact Hs].
  - rewrite results_session. exact Hinv.
  - rewrite demo_session. cbn [session]. unfold session_analysed in *.
    rewrite !lookup_insert_ne by done. rewrite lookup_insert_eq.
    split; [exact (proj1 Hinv)|right; reflexivity].
  - rewrite export_session. exact Hinv.
Qed.

Lemma reachable_analysed s : reachable lower s -> session_analysed lower s.
Proof.
  induction 1 as [|s r t _ IH].
  - unfold session_analysed. rewrite !lookup_empty. split; [reflexivity|].
    left. reflexivity.
  - apply handle_session_analysed, IH.
Qed.

End Sessions.

(** X17. Every session the routes can leave is consistent: a stored analysis
    holds a trimmed, non-empty description together with the stories,
    entities and risks of exactly that description, [user_stories] holds
    the same stories (and is absent when there is no analysis), and
    [demo_description] is absent or the sample text. *)
Theorem reachable_sessions_are_consistent
    (lower : str -> str) (s : gmap string value) :
  reachable lower s ->
  match s !! "analysis"%string with
  | None => s !! "user_stories"%string = None
  | Some v =>
      exists d, d <> [] /\ strip d = d /\
        v = VAnalysis (mkAnalysis d (generate_user_stories lower d)
                         (extract_entities lower d) (generate_risks lower d)) /\
        s !! "user_stories"%string
        = Some (VStories (generate_user_stories lower d))
  end
  /\ (s !! "demo_description"%string = None \/
      s !! "demo_description"%string = Some (VStr sample_description)).
Proof. apply reachable_analysed. Qed.

Lemma reachable_sessions_are_consistent_witness :
  reachable lower_ascii_text
    (session (handle lower_ascii_text
                (POST_analyze {[ "description"%string := py "Users can pay by card" ]})
                (mkWorld ∅ [])).2) /\
  (session (handle lower_ascii_text
              (POST_analyze {[ "description"%string := py "Users can pay by card" ]})
              (mkWorld ∅ [])).2 !! "demo_description"%string = None \/
   session (handle lower_ascii_text
              (POST_analyze {[ "description"%string := py "Users can pay by card" ]})
              (mkWorld ∅ [])).2 !! "demo_description"%string
   = Some (VStr sample_description)).
Proof.
  assert (H : reachable lower_ascii_text
    (session (handle lower_ascii_text
                (POST_analyze {[ "description"%string := py "Users can pay by card" ]})
                (mkWorld ∅ [])).2)).
  { apply reachable_step, reachable_fresh. }
  split; [exact H|].
  exact (proj2 (reachable_sessions_are_consistent lower_ascii_text _ H)).
Defined.

(** X18. The results page and the PDF export agree on every session the
    routes can leave: either both redirect to the index page, or the page
    shows the analysis of a description and the export works on the stories
    of that same description: it sends the document built from them when
    they are latin-1 text and answers with a server error otherwise.  The
    results route never meets a session value of the wrong type. *)
Theorem results_and_export_agree
    (lower : str -> str) (s : gmap string value) (t : list Event) :
  reachable lower s ->
  ((results (mkWorld s t)).1 = Redirect (url_for "index") /\
   (export_stories_pdf (mkWorld s t)).1 = Redirect (url_for "index"))
  \/ (exists d, d <> [] /\
        (results (mkWorld s t)).1
        = RenderTemplate "results.html"
            (ResultsContext d (generate_user_stories lower d)
               (extract_entities lower d) (generate_risks lower d)) /\
        (export_stories_pdf (mkWorld s t)).1
        = if forallb latin1 (generate_user_stories lower d)
          then SendFile (stories_pdf (generate_user_stories lower d))
                 "specgenie_user_stories.pdf" "application/pdf"
          else InternalServerError).
Proof.
  intros Hreach. destruct (reachable_analysed lower s Hreach) as [Hinv _].
  destruct (s !! "analysis"%string) as [v|] eqn:Ha.
  - right. destruct Hinv as (d & Hd & _ & -> & Hs). exists d.
    split; [exact Hd|].
    rewrite (results_of_analysis s t _ Ha).
    rewrite (export_of_stories s t _ (generate_user_stories_not_nil lower d) Hs).
    rewrite pdf_accepts_latin1.
    split; [reflexivity|].
    destruct (forallb latin1 (generate_user_stories lower d)); reflexivity.
  - left. unfold results, export_stories_pdf, mbind, Handler_bind, session_get.
    cbn [session]. rewrite Ha, Hinv. split; reflexivity.
Qed.

Lemma results_and_export_agree_witness :
  reachable lower_ascii_text
    (session (handle lower_ascii_text
                (POST_analyze {[ "description"%string := py "Users can pay by card" ]})
                (mkWorld ∅ [])).2) /\
  (export_stories_pdf
     (mkWorld
        (session (handle lower_ascii_text
                    (POST_analyze {[ "description"%string := py "Users can pay by card" ]})
                    (mkWorld ∅ [])).2) [])).1
  <> Redirect (url_for "index").
Proof.
  assert (H : reachable lower_ascii_text
    (session (handle lower_ascii_text
                (POST_analyze {[ "description"%string := py "Users can pay by card" ]})
                (mkWorld ∅ [])).2)).
  { apply reachable_step, reachable_fresh. }
  split; [exact H|].
  destruct (results_and_export_agree lower_ascii_text _ [] H)
    as [[Hr _]|(d & _ & _ & He)].
  - vm_compute in Hr. discriminate Hr.
  - rewrite He. destruct (forallb latin1 _); discriminate.
Defined.

(** X19. Only the analyze route stores an analysis or calls the core: every
    other route leaves [analysis] and [user_stories] as they are, in any
    session, and adds no call of a core function to the trace. *)
Theorem only_analyze_touches_the_analysis
    (lower : str -> str) (r : Request) (w : World) :
  (forall form, r <> POST_analyze form) ->
  session (handle lower r w).2 !! "analysis"%string
  = session w !! "analysis"%string /\
  session (handle lower r w).2 !! "user_stories"%string
  = session w !! "user_stories"%string /\
  exists new,
    trace (handle lower r w).2 = trace w ++ new /\
    Forall (fun e => forall fn arg, e <> CoreCall fn arg) new.
Proof.
  intros Hr. destruct w as [s t].
  destruct r as [|form| | |]; simpl handle.
  - rewrite index_session. split; [reflexivity|]. split; [reflexivity|].
    eexists. split; [reflexivity|]. repeat constructor. discriminate.
  - destruct (Hr form eq_refl).
  - rewrite results_session. split; [reflexivity|]. split; [reflexivity|].
    unfold results, mbind, Handler_bind, session_get. cbn [session].
    destruct (s !! "analysis"%string) as [[x|l|a]|]; cbn [py_not truthy];
      try case_bool_decide;
      first [ exists []; split; [symmetry; apply app_nil_r|constructor]
            | eexists; split; [reflexivity|];
              repeat constructor; discriminate ].
  - rewrite demo_session. cbn [session].
    rewrite !lookup_insert_ne by done.
    split; [reflexivity|]. split; [reflexivity|].
    exists []. split; [symmetry; apply app_nil_r|constructor].
  - rewrite export_session. split; [reflexivity|]. split; [reflexivity|].
    unfold export_stories_pdf, mbind, Handler_bind, session_get. cbn [session].
    destruct (s !! "user_stories"%string) as [[x|l|a]|]; cbn [py_not truthy];
      try case_bool_decide; try destruct (pdf_accepts _);
      first [ exists []; split; [symmetry; apply app_nil_r|constructor]
            | eexists; split; [reflexivity|];
              repeat constructor; discriminate ].
Qed.

Lemma only_analyze_touches_the_analysis_witness :
  (forall form, GET_demo <> POST_analyze form) /\
  session (handle lower_ascii_text GET_demo (mkWorld ∅ [])).2 !! "analysis"%string
  = (∅ : gmap string value) !! "analysis"%string.
Proof.
  assert (H : forall form, GET_demo <> POST_analyze form) by discriminate.
  split; [exact H|].
  exact (proj1 (only_analyze_touches_the_analysis lower_ascii_text GET_demo
                  (mkWorld ∅ []) H)).
Defined.

(** ** Letter case *)

Lemma ascii_cases (c : N) : c < 128 -> c ∈ map N.of_nat (seq 0 128).
Proof.
  intros Hc. apply list_elem_of_In, in_map_iff. exists (N.to_nat c).
  split; [apply N2Nat.id|]. apply in_seq. lia.
Qed.

Lemma ascii_lower_facts (c : N) :
  is_ascii c ->
  is_sep (ascii_lower c) = is_sep c /\
  is_space (ascii_lower c) = is_space c /\
  ascii_lower (ascii_lower c) = ascii_lower c /\
  is_ascii (ascii_lower c).
Proof.
  intros Hc. apply ascii_cases in Hc. revert c Hc. apply Forall_forall.
  unfold is_ascii. apply (bool_decide_unpack _). vm_compute. exact I.
Qed.

Lemma lstrip_map_lower (s : str) :
  Forall is_ascii s -> lstrip (map ascii_lower s) = map ascii_lower (lstrip s).
Proof.
  induction 1 as [|c s Hc _ IH]; simpl; [reflexivity|].
  destruct (ascii_lower_facts c Hc) as (_ & -> & _).
  destruct (is_space c); [exact IH|reflexivity].
Qed.

Lemma strip_map_lower (s : str) :
  Forall is_ascii s -> strip (map ascii_lower s) = map ascii_lower (strip s).
Proof.
  intros Hs. unfold strip, rstrip.
  rewrite (lstrip_map_lower s Hs), <- map_rev, lstrip_map_lower, map_rev.
  - reflexivity.
  - apply Forall_rev, lstrip_Forall, Hs.
Qed.

Lemma re_split_from_map_lower (s : str) :
  Forall is_ascii s ->
  forall in_run cur,
    re_split_from in_run (map ascii_lower cur) (map ascii_lower s)
    = map (map ascii_lower) (re_split_from in_run cur s).
Proof.
  induction 1 as [|c s Hc _ IH]; intros in_run cur; simpl.
  - rewrite map_rev. reflexivity.
  - destruct (ascii_lower_facts c Hc) as (-> & _).
    destruct (is_sep c).
    + destruct in_run.
      * apply (IH true []).
      * simpl. rewrite map_rev. f_equal. apply (IH true []).
    + apply (IH false (c :: cur)).
Qed.

Lemma map_lower_idempotent (s : str) :
  Forall is_ascii s -> map ascii_lower (map ascii_lower s) = map ascii_lower s.
Proof.
  induction 1 as [|c s Hc _ IH]; simpl; [reflexivity|].
  destruct (ascii_lower_facts c Hc) as (_ & _ & -> & _). rewrite IH.
  reflexivity.
Qed.

Lemma map_lower_ascii (s : str) :
  Forall is_ascii s -> Forall is_ascii (map ascii_lower s).
Proof.
  induction 1 as [|c s Hc _ IH]; simpl; constructor; [|exact IH].
  apply (ascii_lower_facts c Hc).
Qed.

Lemma loop_stories_map_lower (segs : list str) :
  Forall (Forall is_ascii) segs ->
  flat_map (story_step lower_ascii_text []) (map (map ascii_lower) segs)
  = flat_map (story_step lower_ascii_text []) segs.
Proof.
  induction 1 as [|seg segs Hseg _ IH]; simpl; [reflexivity|].
  rewrite IH. f_equal. unfold story_step, lower_ascii_text.
  rewrite (strip_map_lower seg Hseg), length_map.
  rewrite (map_lower_idempotent (strip seg) (strip_Forall _ _ Hseg)).
  reflexivity.
Qed.

Lemma generate_user_stories_lowered (d : str) :
  Forall is_ascii d ->
  generate_user_stories lower_ascii_text (map ascii_lower d)
  = generate_user_stories lower_ascii_text d.
Proof.
  intros Hd. rewrite !generate_user_stories_unfold. unfold loop_stories, re_split.
  pose proof (re_split_from_map_lower d Hd false []) as Hsplit.
  change (map ascii_lower []) with (@nil N) in Hsplit. rewrite Hsplit.
  rewrite loop_stories_map_lower; [reflexivity|].
  apply re_split_Forall, Hd.
Qed.

(** X20. Letter case is ignored: two ASCII texts that differ only in the case
    of their letters get the same stories, the same entities and the same
    risks ([str.lower] being assumed to lower-case ASCII text the usual
    way). *)
Theorem letter_case_is_ignored (lower : str -> str) (d1 d2 : str) :
  agrees_on_ascii lower ->
  Forall is_ascii d1 -> Forall is_ascii d2 ->
  map ascii_lower d1 = map ascii_lower d2 ->
  generate_user_stories lower d1 = generate_user_stories lower d2 /\
  extract_entities lower d1 = extract_entities lower d2 /\
  generate_risks lower d1 = generate_risks lower d2.
Proof.
  intros Hlow H1 H2 Heq.
  assert (Hl : lower d1 = lower d2).
  { rewrite (Hlow d1 H1), (Hlow d2 H2). exact Heq. }
  split; [|split].
  - rewrite (generate_user_stories_ascii lower d1 Hlow H1).
    rewrite (generate_user_stories_ascii lower d2 Hlow H2).
    rewrite <- (generate_user_stories_lowered d1 H1).
    rewrite <- (generate_user_stories_lowered d2 H2).
    rewrite Heq. reflexivity.
  - unfold extract_entities. rewrite Hl. reflexivity.
  - unfold generate_risks. rewrite Hl. reflexivity.
Qed.

Lemma letter_case_is_ignored_witness :
  agrees_on_ascii lower_ascii_text /\
  generate_user_stories lower_ascii_text (py "USERS CAN Upload Files")
  = generate_user_stories lower_ascii_text (py "users can upload files").
Proof.
  assert (H : agrees_on_ascii lower_ascii_text) by (intros s _; reflexivity).
  split; [exact H|].
  apply (letter_case_is_ignored lower_ascii_text
           (py "USERS CAN Upload Files") (py "users can upload files") H).
  - apply forallb_is_ascii. vm_compute. reflexivity.
  - apply forallb_is_ascii. vm_compute. reflexivity.
  - vm_compute. reflexivity.
Defined.
